(** * Password-recovery window: a shallow embedding of
      [FinalProject/windows/recovery_window.py] and its properties.

    Modelling conventions.
    - Python [str] values are strings over 8-bit characters, read as the
      code points U+0000..U+00FF; [strip] and [lower] follow Python on
      that range.
    - Values produced by [json.load] are the type [pyval]; a [dict] is an
      association list in insertion order.
    - A file is absent, present but unreadable (opening or reading it
      raises), present but rejected by [json.load] ([JSONDecodeError]), or
      present and decoded to a value.
    - Effects are threaded through a state-and-exception monad [M]: the
      state holds the window's widgets, the modal dialogs opened by
      [show_message] and the SMTP traffic; [print] calls write to the
      console only and are left out.
    - An f-string is the list of its literal and interpolated parts. *)

From Stdlib Require Import Bool Ascii String List NArith ZArith Lia.
From Stdlib Require Import SpecFloat Permutation.
Import ListNotations.
Open Scope string_scope.

Set Warnings "-register-all".

(* ------------------------------------------------------------------ *)
(** ** Python values and text *)

(** The values [json.load] can return. *)
Inductive pyval : Type :=
| PNone
| PBool (b : bool)
| PInt (n : Z)
| PFloat (f : spec_float)
| PStr (s : string)
| PList (l : list pyval)
| PDict (d : list (string * pyval)).

Definition dict := list (string * pyval).

(** The two module-level path constants (both depend on [os.getcwd()]). *)
Inductive path : Type := DB_FILE | EMAIL_CONFIG_FILE.

(** Exception classes that occur in the unit.  [OtherError] stands for any
    further subclass of [Exception] a library call may raise (for instance
    [OSError], [UnicodeDecodeError], [smtplib.SMTPServerDisconnected] or
    the [smtplib.SMTPResponseException] of a refused QUIT). *)
Inductive exn_class : Type :=
| FileNotFoundError
| JSONDecodeError
| TypeError
| AttributeError
| KeyError
| SMTPAuthenticationError
| SMTPConnectError
| OtherError
| DatabaseError
| EmailConfigError
| EmailSendingError
| UserNotFoundError.

(** An exception is its class and its constructor argument; the argument
    is text, kept as the parts of the f-string that built it. *)
Inductive exn : Type :=
| Exn (cls : exn_class) (args : list part)
with part : Type :=
| Lit (s : string)          (* literal text, or an interpolated [str] *)
| PathOf (p : path)         (* an interpolated path constant *)
| ReprOf (v : pyval)        (* an interpolated non-string value *)
| StrOf (e : exn)           (* [str(e)] of an exception *)
| Native.                   (* text chosen by the interpreter or a library *)

Definition text := list part.

Definition class_of (e : exn) : exn_class :=
  match e with Exn c _ => c end.

Definition exn_class_eqb (a b : exn_class) : bool :=
  match a, b with
  | FileNotFoundError, FileNotFoundError
  | JSONDecodeError, JSONDecodeError
  | TypeError, TypeError
  | AttributeError, AttributeError
  | KeyError, KeyError
  | SMTPAuthenticationError, SMTPAuthenticationError
  | SMTPConnectError, SMTPConnectError
  | OtherError, OtherError
  | DatabaseError, DatabaseError
  | EmailConfigError, EmailConfigError
  | EmailSendingError, EmailSendingError
  | UserNotFoundError, UserNotFoundError => true
  | _, _ => false
  end.

(** What an [except] clause names. *)
Inductive handler_class : Type :=
| Exception                  (* [except Exception] *)
| Only (c : exn_class).      (* [except c] *)

(** Modelled from the spec: the module [assets/custom_errors.py], which
    declares [DatabaseError], [EmailConfigError], [EmailSendingError] and
    [UserNotFoundError], is not in the source tree.  The spec's error
    taxonomy lists them as four separate, ordinary failures that can be
    caught; they are taken as direct subclasses of [Exception], unrelated
    to each other and to the library classes.  None of the classes named
    by an [except] clause of the unit has a subclass among [exn_class], so
    [isinstance] is class equality below [Exception]. *)
Definition isinstance (e : exn) (h : handler_class) : bool :=
  match h with
  | Exception => true
  | Only c => exn_class_eqb (class_of e) c
  end.

(* ------------------------------------------------------------------ *)
(** ** [str.strip], [str.lower], truthiness *)

(** [str.isspace] on U+0000..U+00FF: TAB..CR, FS..US, space, NEL, NBSP. *)
Definition isspace (c : ascii) : bool :=
  let n := N_of_ascii c in
  ((9 <=? n) && (n <=? 13) || (28 <=? n) && (n <=? 32)
   || (n =? 133) || (n =? 160))%N.

(** [str.lower] on one character of U+0000..U+00FF: A-Z and the Latin-1
    capitals (U+00C0..U+00DE without the multiplication sign U+00D7). *)
Definition lower_char (c : ascii) : ascii :=
  let n := N_of_ascii c in
  if ((65 <=? n) && (n <=? 90)
      || (192 <=? n) && (n <=? 222) && negb (n =? 215))%N
  then ascii_of_N (n + 32) else c.

Fixpoint lower (s : string) : string :=
  match s with
  | EmptyString => EmptyString
  | String c s' => String (lower_char c) (lower s')
  end.

Fixpoint lstrip (s : string) : string :=
  match s with
  | EmptyString => EmptyString
  | String c s' => if isspace c then lstrip s' else s
  end.

Fixpoint rstrip (s : string) : string :=
  match s with
  | EmptyString => EmptyString
  | String c s' =>
      match rstrip s' with
      | EmptyString => if isspace c then EmptyString else String c EmptyString
      | r => String c r
      end
  end.

(** [s.strip()] with no argument. *)
Definition strip (s : string) : string := rstrip (lstrip s).

(** Truth value of a [str]: empty is false. *)
Definition truthy_str (s : string) : bool :=
  match s with EmptyString => false | _ => true end.

(** Truth value of a value returned by [json.load]. *)
Definition truthy (v : pyval) : bool :=
  match v with
  | PNone => false
  | PBool b => b
  | PInt n => negb (n =? 0)%Z
  | PFloat (S754_zero _) => false
  | PFloat _ => true
  | PStr s => truthy_str s
  | PList l => match l with [] => false | _ => true end
  | PDict d => match d with [] => false | _ => true end
  end.

(** Substring test, [a in b] for two [str]. *)
Fixpoint str_contains (needle hay : string) : bool :=
  if String.prefix needle hay then true
  else match hay with
       | EmptyString => false
       | String _ hay' => str_contains needle hay'
       end.

(* ------------------------------------------------------------------ *)
(** ** State, environment and the effect monad *)

(** [EmailSender]'s attributes. *)
Record EmailSender : Type := {
  smtp_server : string;
  smtp_port : Z;
  sender_email : string;
  sender_password : string
}.

(** The [MIMEMultipart] message: its three headers and its one
    [text/plain] part. *)
Record message : Type := {
  msg_From : string;
  msg_To : string;
  msg_Subject : string;
  msg_body : string
}.

(** The calls made on an [smtplib.SMTP] connection.  The first four are
    the calls of the source; [Sendmail] stands for the evaluation of its
    argument [msg.as_string()] followed by the call.  [Quit] is the QUIT
    that the library sends when the [with] block is left. *)
Inductive smtp_op : Type :=
| SMTP (host : string) (port : Z)
| Starttls
| Login (user password : string)
| Sendmail (from_addr to_addr : string) (msg : message)
| Quit.

(** One call of [show_message(parent, title, text)]; [dlg_parent] is
    [true] for [self] and [false] for [None]. *)
Record dialog : Type := {
  dlg_parent : bool;
  dlg_title : string;
  dlg_text : text
}.

(** What the flow can change: the text of the input field, whether the
    window is still open (Idle) or was closed, the dialogs shown so far
    and the SMTP calls of the source that went through, both oldest
    first. *)
Record state : Type := {
  email_input : string;
  email_sender : EmailSender;
  is_open : bool;
  dialogs : list dialog;
  wire : list smtp_op
}.

Inductive file_state : Type :=
| Absent                  (* [os.path.exists] is false *)
| Garbled                 (* [json.load] raises [JSONDecodeError] *)
| Unreadable              (* the file exists, but [open] or the read in
                             [json.load] raises: [PermissionError],
                             [IsADirectoryError], [UnicodeDecodeError] *)
| Holds (v : pyval).      (* [json.load] returns [v] *)

(** What the flow only reads: the two files, the answer of the network to
    each SMTP call ([None]: the call returns; [Some e]: it raises [e], an
    instance of [Exception]), and the imported pattern [email_regex],
    given by the strings that [re.fullmatch] accepts for it.  For
    [Sendmail] the answer [Some e] covers a [HeaderParseError] of
    [msg.as_string()]; for [Quit], [None] is the reply 221 or a server
    that is already gone, and [Some e] the [SMTPResponseException] that
    [SMTP.__exit__] raises on any other reply. *)
Record env : Type := {
  fs : path -> file_state;
  net : smtp_op -> option exn;
  email_regex : string -> bool
}.

Inductive result (A : Type) : Type :=
| Ok (a : A)
| Raise (e : exn).
Arguments Ok {A} a.
Arguments Raise {A} e.

Definition M (A : Type) : Type := state -> result A * state.

Definition ret {A} (a : A) : M A := fun s => (Ok a, s).

Definition raise {A} (e : exn) : M A := fun s => (Raise e, s).

Definition bind {A B} (m : M A) (f : A -> M B) : M B :=
  fun s => match m s with
           | (Ok a, s') => f a s'
           | (Raise e, s') => (Raise e, s')
           end.

Notation "x <- m ;; k" := (bind m (fun x => k))
  (at level 61, m at next level, right associativity).
Notation "m ;; k" := (bind m (fun _ => k))
  (at level 61, right associativity).

(** The first [except] clause whose class the exception is an instance of. *)
Fixpoint select_handler {A} (e : exn)
    (handlers : list (handler_class * (exn -> M A))) : option (M A) :=
  match handlers with
  | [] => None
  | (c, h) :: rest =>
      if isinstance e c then Some (h e) else select_handler e rest
  end.

(** [try: body except c1 as e: h1 except c2 as e: h2 ...]. *)
Definition try_except {A} (body : M A)
    (handlers : list (handler_class * (exn -> M A))) : M A :=
  fun s => match body s with
           | (Ok a, s') => (Ok a, s')
           | (Raise e, s') =>
               match select_handler e handlers with
               | Some h => h s'
               | None => (Raise e, s')
               end
           end.

(** Field updates of the state. *)
Definition add_dialog (d : dialog) (s : state) : state :=
  {| email_input := email_input s;
     email_sender := email_sender s;
     is_open := is_open s;
     dialogs := dialogs s ++ [d];
     wire := wire s |}.

Definition add_wire (op : smtp_op) (s : state) : state :=
  {| email_input := email_input s;
     email_sender := email_sender s;
     is_open := is_open s;
     dialogs := dialogs s;
     wire := wire s ++ [op] |}.

Definition set_input (txt : string) (s : state) : state :=
  {| email_input := txt;
     email_sender := email_sender s;
     is_open := is_open s;
     dialogs := dialogs s;
     wire := wire s |}.

Definition set_open (b : bool) (s : state) : state :=
  {| email_input := email_input s;
     email_sender := email_sender s;
     is_open := b;
     dialogs := dialogs s;
     wire := wire s |}.

(** [show_message(parent, title, text)] opens a modal dialog. *)
Definition show_message (parent : bool) (title : string) (t : text)
    : M unit :=
  fun s => (Ok tt, add_dialog {| dlg_parent := parent;
                                 dlg_title := title;
                                 dlg_text := t |} s).

(** [self.email_input.text()]. *)
Definition input_text : M string := fun s => (Ok (email_input s), s).

(** [self.email_input.clear()]. *)
Definition input_clear : M unit := fun s => (Ok tt, set_input EmptyString s).

(** [self.close()]. *)
Definition close : M unit := fun s => (Ok tt, set_open false s).

(** [self.email_sender]. *)
Definition self_email_sender : M EmailSender :=
  fun s => (Ok (email_sender s), s).

(** One call of the source on the SMTP connection: it raises what the
    network answers, or goes through and is recorded. *)
Definition smtp_call (E : env) (op : smtp_op) : M unit :=
  fun s => match net E op with
           | Some e => (Raise e, s)
           | None => (Ok tt, add_wire op s)
           end.

(** Leaving [with smtplib.SMTP(...) as server:].  [SMTP.__exit__] sends
    QUIT and closes the connection; when the reply is not 221 it raises,
    and what it raises takes the place of the block's own outcome, an
    exception of the block included. *)
Definition with_exit (E : env) (block : M unit) : M unit :=
  fun s => match block s with
           | (r, s') =>
               match net E Quit with
               | Some e => (Raise e, s')
               | None => (r, s')
               end
           end.

(** [os.path.exists(p)]. *)
Definition path_exists (E : env) (p : path) : bool :=
  match fs E p with Absent => false | _ => true end.

(** [with open(p, "r") as f: json.load(f)]. *)
Definition json_load (E : env) (p : path) : M pyval :=
  match fs E p with
  | Absent => raise (Exn FileNotFoundError [Native])
  | Garbled => raise (Exn JSONDecodeError [Native])
  | Unreadable => raise (Exn OtherError [Native])
  | Holds v => ret v
  end.

(* ------------------------------------------------------------------ *)
(** ** Operations on dynamically typed values *)

Fixpoint dict_lookup (k : string) (d : dict) : option pyval :=
  match d with
  | [] => None
  | (k', v) :: rest => if String.eqb k' k then Some v else dict_lookup k rest
  end.

Definition is_str (k : string) (v : pyval) : bool :=
  match v with PStr s => String.eqb s k | _ => false end.

(** [db.items()]. *)
Definition py_items (v : pyval) : M dict :=
  match v with
  | PDict d => ret d
  | _ => raise (Exn AttributeError [Native])
  end.

(** [v.get(k)]: the value, or [None] when the key is missing. *)
Definition py_get (v : pyval) (k : string) : M pyval :=
  match v with
  | PDict d => ret (match dict_lookup k d with Some x => x | None => PNone end)
  | _ => raise (Exn AttributeError [Native])
  end.

(** [k in v] for a [str] [k]: key of a dict, substring of a str, element
    of a list; the other values are not containers. *)
Definition py_contains (k : string) (v : pyval) : M bool :=
  match v with
  | PDict d => ret (match dict_lookup k d with Some _ => true | None => false end)
  | PStr s => ret (str_contains k s)
  | PList l => ret (existsb (is_str k) l)
  | _ => raise (Exn TypeError [Native])
  end.

(** [v[k]] for a [str] [k]. *)
Definition py_getitem (v : pyval) (k : string) : M pyval :=
  match v with
  | PDict d =>
      match dict_lookup k d with
      | Some x => ret x
      | None => raise (Exn KeyError [ReprOf (PStr k)])
      end
  | _ => raise (Exn TypeError [Native])
  end.

(** [v.strip().lower()]. *)
Definition py_strip_lower (v : pyval) : M string :=
  match v with
  | PStr s => ret (lower (strip s))
  | _ => raise (Exn AttributeError [Native])
  end.

(** [re.fullmatch(email_regex, v)], as the truth value of its result. *)
Definition re_fullmatch (E : env) (v : pyval) : M bool :=
  match v with
  | PStr s => ret (email_regex E s)
  | _ => raise (Exn TypeError [Native])
  end.

(** How an interpolated value appears in an f-string. *)
Definition fmt (v : pyval) : part :=
  match v with PStr s => Lit s | _ => ReprOf v end.

(* ------------------------------------------------------------------ *)
(** ** The unit *)

Definition nl : string := String "010"%char EmptyString.

(** [load_config()]. *)
Definition load_config (E : env) : M pyval :=
  if path_exists E EMAIL_CONFIG_FILE then
    try_except
      (config <- json_load E EMAIL_CONFIG_FILE ;;
       sender_email <- py_get config "sender_email" ;;
       sender_password <- py_get config "sender_password" ;;
       if negb (truthy sender_email) || negb (truthy sender_password)
       then raise (Exn EmailConfigError
                     [Lit "Missing email or password in the configuration file."])
       else ret config)
      [ (Only JSONDecodeError,
         fun e =>
           show_message false "Configuration Error"
             [Lit "Failed to decode email config: "; StrOf e] ;;
           raise (Exn EmailConfigError
                    [Lit "Failed to decode email config: "; StrOf e])) ]
  else
    show_message false "Configuration Error"
      [Lit "Config file not found at "; PathOf EMAIL_CONFIG_FILE] ;;
    raise (Exn EmailConfigError
             [Lit "Config file not found at "; PathOf EMAIL_CONFIG_FILE]).

(** The subject and the body built by [send_recovery_email]. *)
Definition recovery_subject : string := "Password Recovery".

Definition recovery_body (username : string) : string :=
  "Hello " ++ username ++ "," ++ nl ++ nl
  ++ "We received a request to recover your password." ++ nl
  ++ "Your password is: ['password_hash']" ++ nl ++ nl
  ++ "If you did not request this, please ignore this message.".

(** [EmailSender.send_recovery_email(self, recipient_email, username)].
    Lines 89-99 build the message before the [try].  [MIMEMultipart()],
    the three header assignments and [attach] do not raise;
    [MIMEText(body, "plain")] encodes the body as US-ASCII or else UTF-8
    and raises [UnicodeEncodeError] only for text that UTF-8 cannot
    encode (lone surrogates), which no string of this model is: its code
    points end at U+00FF.  So this part is total here.  The [try] holds
    the [with] block: the constructor [smtplib.SMTP(...)] connects, and
    only once it has returned is the block entered and left through
    [SMTP.__exit__]. *)
Definition send_recovery_email (E : env) (self : EmailSender)
    (recipient_email username : string) : M unit :=
  let subject := recovery_subject in
  let body := recovery_body username in
  let msg := {| msg_From := sender_email self;
                msg_To := recipient_email;
                msg_Subject := subject;
                msg_body := body |} in
  try_except
    (smtp_call E (SMTP (smtp_server self) (smtp_port self)) ;;
     with_exit E
       (smtp_call E Starttls ;;
        smtp_call E (Login (sender_email self) (sender_password self)) ;;
        smtp_call E (Sendmail (sender_email self) recipient_email msg)))
    [ (Only SMTPAuthenticationError,
       fun _ =>
         raise (Exn EmailSendingError
                  [Lit "Authentication error: Unable to authenticate with SMTP server."]));
      (Only SMTPConnectError,
       fun _ =>
         raise (Exn EmailSendingError
                  [Lit "Connection error: Could not connect to SMTP server."]));
      (Exception,
       fun e =>
         raise (Exn EmailSendingError
                  [Lit "Failed to send the recovery email: "; StrOf e])) ].

(** The loop of [validate_users_db] over [db.items()]. *)
Fixpoint validate_items (E : env) (items : dict) : M bool :=
  match items with
  | [] => ret true
  | (username, details) :: rest =>
      has_email <- py_contains "email" details ;;
      missing <- (if negb has_email then ret true
                  else has_hash <- py_contains "password_hash" details ;;
                       ret (negb has_hash)) ;;
      if (missing : bool)
      then raise (Exn DatabaseError
                    [Lit "Missing fields for user '"; Lit username;
                     Lit "': "; fmt details])
      else
        email <- py_getitem details "email" ;;
        matched <- re_fullmatch E email ;;
        if negb matched
        then raise (Exn DatabaseError
                      [Lit "Invalid email format for user '"; Lit username;
                       Lit "': "; fmt email])
        else validate_items E rest
  end.

(** [RecoveryWindow.validate_users_db(db)]. *)
Definition validate_users_db (E : env) (db : pyval) : M bool :=
  items <- py_items db ;;
  validate_items E items.

(** [RecoveryWindow.load_users_db()].  The [try] body leaves the function
    through [return data]; the handlers fall through to the final
    [return {}]. *)
Definition load_users_db (E : env) : M pyval :=
  returned <-
    try_except
      ((if negb (path_exists E DB_FILE)
        then raise (Exn DatabaseError
                      [Lit "Database file not found at "; PathOf DB_FILE])
        else ret tt) ;;
       data <- json_load E DB_FILE ;;
       valid <- validate_users_db E data ;;
       (if negb valid
        then raise (Exn DatabaseError [Lit "Invalid user database structure."])
        else ret tt) ;;
       ret (Some data))
      [ (Only FileNotFoundError,
         fun _ =>
           show_message false "File Error"
             [Lit "Database file not found at "; PathOf DB_FILE] ;;
           ret None);
        (Only JSONDecodeError,
         fun e =>
           show_message false "JSON Error"
             [Lit "Failed to decode database JSON: "; StrOf e] ;;
           ret None);
        (Exception,
         fun e =>
           show_message false "Error" [Lit "Unexpected error: "; StrOf e] ;;
           ret None) ] ;;
  match returned with
  | Some data => ret data
  | None => ret (PDict [])
  end.

(** The loop of [find_user_by_email] over [users_db.items()], followed by
    the [raise] after it. *)
Fixpoint find_items (email : string) (items : dict) : M string :=
  match items with
  | [] => raise (Exn UserNotFoundError [Lit email])
  | (username, details) :: rest =>
      stored <- py_get details "email" ;;
      stored <- py_strip_lower stored ;;
      if String.eqb stored email then ret username
      else find_items email rest
  end.

(** [RecoveryWindow.find_user_by_email(email)]. *)
Definition find_user_by_email (E : env) (email : string) : M string :=
  let email := lower (strip email) in
  users_db <- load_users_db E ;;
  items <- py_items users_db ;;
  find_items email items.

(** [RecoveryWindow.recover_password(self)], the slot of the button. *)
Definition recover_password (E : env) : M unit :=
  email <- input_text ;;
  user <- find_user_by_email E email ;;
  if truthy_str user then
    try_except
      (sender <- self_email_sender ;;
       send_recovery_email E sender email user ;;
       show_message true "Success" [Lit "A recovery email has been sent."] ;;
       close)
      [ (Exception, fun e => show_message true "Error" [StrOf e]) ]
  else
    show_message true "Error" [Lit "Email not found. Please try again."] ;;
    input_clear.

(** The attributes an [EmailSender] object holds once constructed.  The
    server and the port are the literals of the only call; the two
    credentials are whatever values the caller passes. *)
Record sender_attrs : Type := {
  attr_smtp_server : string;
  attr_smtp_port : Z;
  attr_sender_email : pyval;
  attr_sender_password : pyval
}.

(** [EmailSender.__init__(self, smtp_server, smtp_port, sender_email,
    sender_password)]: the four arguments are stored as they come. *)
Definition EmailSender_init (server : string) (port : Z)
    (email password : pyval) : sender_attrs :=
  {| attr_smtp_server := server;
     attr_smtp_port := port;
     attr_sender_email := email;
     attr_sender_password := password |}.

(** The [try] statement of [RecoveryWindow.__init__], run on the window
    once its widgets are laid out.  The result is the object the
    constructor binds to [self.email_sender]; the state's own
    [email_sender] field is not assigned yet and is not read. *)
Definition RecoveryWindow_init (E : env) : M sender_attrs :=
  try_except
    (config <- load_config E ;;
     sender_email <- py_get config "sender_email" ;;
     sender_password <- py_get config "sender_password" ;;
     if negb (truthy sender_email) || negb (truthy sender_password)
     then
       show_message true "Configuration Error"
         [Lit "Missing email or password in configuration file."] ;;
       raise (Exn EmailConfigError
                [Lit "Missing email or password in configuration file."])
     else
       ret (EmailSender_init "smtp.gmail.com" 587 sender_email sender_password))
    [ (Only EmailConfigError,
       fun e =>
         show_message true "Configuration Error" [StrOf e] ;;
         raise e) ].

(* ------------------------------------------------------------------ *)
(** ** A concrete pattern and concrete environments *)

Fixpoint has_char (c : ascii) (s : string) : bool :=
  match s with
  | EmptyString => false
  | String c' s' => Ascii.eqb c' c || has_char c s'
  end.

Fixpoint has_space (s : string) : bool :=
  match s with
  | EmptyString => false
  | String c s' => isspace c || has_space s'
  end.

(** The text after the first occurrence of [c], if any, with the length
    of the text before it. *)
Fixpoint after_first (c : ascii) (s : string) : option (nat * string) :=
  match s with
  | EmptyString => None
  | String c' s' =>
      if Ascii.eqb c' c then Some (O, s')
      else match after_first c s' with
           | Some (n, r) => Some (S n, r)
           | None => None
           end
  end.

(** Modelled from the spec: the pattern [email_regex] of
    [assets/regex.py] is not in the source tree.  The spec describes it as
    local-part@domain, the domain containing at least one dot, with no
    whitespace inside: a non-empty local part, one [@], a domain with a
    dot, and no whitespace character anywhere. *)
Definition email_regex_spec (s : string) : bool :=
  match after_first "@" s with
  | Some (n, domain) =>
      negb (Nat.eqb n 0) && negb (has_char "@" domain)
      && has_char "." domain && negb (has_space s)
  | None => false
  end.

Definition gmail_sender : EmailSender :=
  {| smtp_server := "smtp.gmail.com";
     smtp_port := 587;
     sender_email := "noreply@example.com";
     sender_password := "app-password" |}.

(** An open window whose sender was built from the config, with [txt]
    typed into the field. *)
Definition window_with (txt : string) : state :=
  {| email_input := txt;
     email_sender := gmail_sender;
     is_open := true;
     dialogs := [];
     wire := [] |}.

Definition user_record (email password_hash : string) : pyval :=
  PDict [("email", PStr email); ("password_hash", PStr password_hash)].

(** The store of the spec's scenarios. *)
Definition alice_store : dict := [("alice", user_record "A@X.com" "h1")].

(** Two users whose emails normalise to the same text. *)
Definition twin_store : dict :=
  [("alice", user_record "A@X.com" "h1"); ("bob", user_record "a@x.com" "h2")].

(** A store whose only user has the empty string as username (the JSON
    text [{"": {...}}] once decoded). *)
Definition anonymous_store : dict := [("", user_record "a@x.com" "h1")].

Definition reachable_net (op : smtp_op) : option exn := None.

(** A network whose server rejects the credentials. *)
Definition rejecting_net (op : smtp_op) : option exn :=
  match op with
  | Login _ _ => Some (Exn SMTPAuthenticationError [Native])
  | _ => None
  end.

(** An environment with the given user store, a network that accepts every
    call, and the spec's pattern. *)
Definition env_with (db : file_state) : env :=
  {| fs := fun p => match p with DB_FILE => db | EMAIL_CONFIG_FILE => Absent end;
     net := reachable_net;
     email_regex := email_regex_spec |}.

(** The same, with a server that rejects the credentials. *)
Definition env_rejecting (db : file_state) : env :=
  {| fs := fun p => match p with DB_FILE => db | EMAIL_CONFIG_FILE => Absent end;
     net := rejecting_net;
     email_regex := email_regex_spec |}.

Definition env_with_config (cfg : file_state) : env :=
  {| fs := fun p => match p with DB_FILE => Absent | EMAIL_CONFIG_FILE => cfg end;
     net := reachable_net;
     email_regex := email_regex_spec |}.

(** Two users with different addresses, in both orders. *)
Definition pair_store : dict :=
  [("alice", user_record "A@X.com" "h1"); ("carol", user_record "c@x.com" "h3")].

Definition pair_store_swapped : dict :=
  [("carol", user_record "c@x.com" "h3"); ("alice", user_record "A@X.com" "h1")].

(** A network whose server rejects the credentials and then answers QUIT
    with a reply other than 221. *)
Definition rejecting_unclean_net (op : smtp_op) : option exn :=
  match op with
  | Login _ _ => Some (Exn SMTPAuthenticationError [Native])
  | Quit => Some (Exn OtherError [Native])
  | _ => None
  end.

(** A network whose server accepts the mail and then answers QUIT with a
    reply other than 221. *)
Definition unclean_quit_net (op : smtp_op) : option exn :=
  match op with
  | Quit => Some (Exn OtherError [Native])
  | _ => None
  end.

(** A network whose server refuses STARTTLS. *)
Definition plaintext_only_net (op : smtp_op) : option exn :=
  match op with
  | Starttls => Some (Exn OtherError [Native])
  | _ => None
  end.

(** An environment with both files and a network given. *)
Definition env_full (cfg db : file_state) (n : smtp_op -> option exn) : env :=
  {| fs := fun p => match p with DB_FILE => db | EMAIL_CONFIG_FILE => cfg end;
     net := n;
     email_regex := email_regex_spec |}.

(** A config file naming the credentials of [gmail_sender]. *)
Definition gmail_config : dict :=
  [("sender_email", PStr "noreply@example.com");
   ("sender_password", PStr "app-password")].

(* ------------------------------------------------------------------ *)
(** ** Specification-side notions *)

(** Trimmed and case-folded text. *)
Definition normalize (s : string) : string := lower (strip s).

(** The email of a record, when the record is a mapping whose [email]
    entry is text. *)
Definition stored_email (details : pyval) : option string :=
  match details with
  | PDict r =>
      match dict_lookup "email" r with
      | Some (PStr e) => Some e
      | _ => None
      end
  | _ => None
  end.

Definition has_key (k : string) (r : dict) : bool :=
  match dict_lookup k r with Some _ => true | None => false end.

(** A record passes both checks: it has the two keys, and its email fully
    matches the pattern. *)
Definition record_ok (E : env) (details : pyval) : bool :=
  match details with
  | PDict r =>
      has_key "email" r && has_key "password_hash" r
      && match stored_email details with
         | Some e => email_regex E e
         | None => false
         end
  | _ => false
  end.

(** The records at which validation ends in a [TypeError]: a value that is
    not a container; a text or a list that happens to contain both key
    names; a mapping with both keys whose email is not text. *)
Definition ill_typed (details : pyval) : bool :=
  match details with
  | PNone | PBool _ | PInt _ | PFloat _ => true
  | PStr t => str_contains "email" t && str_contains "password_hash" t
  | PList l =>
      existsb (is_str "email") l && existsb (is_str "password_hash") l
  | PDict r =>
      has_key "password_hash" r
      && match dict_lookup "email" r with
         | Some (PStr _) => false
         | Some _ => true
         | None => false
         end
  end.

Definition all_records_ok (E : env) (db : dict) : bool :=
  forallb (fun entry => record_ok E (snd entry)) db.

(** A well-formed store: a mapping whose records all pass. *)
Definition valid_store (E : env) (v : pyval) : bool :=
  match v with
  | PDict db => all_records_ok E db
  | _ => false
  end.

(** The store resource is present, decodes, and is well-formed. *)
Definition store_ok (E : env) : bool :=
  match fs E DB_FILE with
  | Holds v => valid_store E v
  | _ => false
  end.

(** The record's email equals the query once both are normalised. *)
Definition matches (q : string) (entry : string * pyval) : bool :=
  match stored_email (snd entry) with
  | Some e => String.eqb (normalize e) (normalize q)
  | None => false
  end.

(** The username of the first record, in iteration order, that matches. *)
Definition first_match (q : string) (db : dict) : option string :=
  option_map fst (find (matches q) db).

Definition lookup_result (q : string) (db : dict) : result string :=
  match first_match q db with
  | Some u => Ok u
  | None => Raise (Exn UserNotFoundError [Lit (normalize q)])
  end.

(** What the lookup sees of a store: the usernames in order, each with its
    normalised email. *)
Definition directory (db : dict) : list (string * option string) :=
  map (fun entry => (fst entry, option_map normalize (stored_email (snd entry))))
      db.

Fixpoint all_space (s : string) : bool :=
  match s with
  | EmptyString => true
  | String c s' => isspace c && all_space s'
  end.

(** A config field is absent, or present with a false truth value (for
    text: the empty string). *)
Definition absent_or_blank (k : string) (d : dict) : bool :=
  match dict_lookup k d with
  | Some v => negb (truthy v)
  | None => true
  end.

(** The four calls [send_recovery_email] makes, in order. *)
Definition smtp_session (self : EmailSender) (recipient_email username : string)
    : list smtp_op :=
  [ SMTP (smtp_server self) (smtp_port self);
    Starttls;
    Login (sender_email self) (sender_password self);
    Sendmail (sender_email self) recipient_email
      {| msg_From := sender_email self;
         msg_To := recipient_email;
         msg_Subject := recovery_subject;
         msg_body := recovery_body username |} ].

(** The exception raised by the first call that the network refuses. *)
Fixpoint first_failure (E : env) (ops : list smtp_op) : option exn :=
  match ops with
  | [] => None
  | op :: rest =>
      match net E op with
      | Some e => Some e
      | None => first_failure E rest
      end
  end.

(** The exception that reaches the [except] clauses of
    [send_recovery_email], if any: that of the connection; once connected,
    that of leaving the [with] block when QUIT is refused; otherwise that
    of the first refused call of the block. *)
Definition raised_in_try (E : env) (self : EmailSender)
    (recipient_email username : string) : option exn :=
  match net E (SMTP (smtp_server self) (smtp_port self)) with
  | Some e => Some e
  | None =>
      match net E Quit with
      | Some y => Some y
      | None => first_failure E (smtp_session self recipient_email username)
      end
  end.

(** The calls that went through before the first refusal. *)
Fixpoint completed (E : env) (ops : list smtp_op) : list smtp_op :=
  match ops with
  | [] => []
  | op :: rest =>
      match net E op with
      | Some _ => []
      | None => op :: completed E rest
      end
  end.

Definition add_wires (ops : list smtp_op) (s : state) : state :=
  fold_left (fun acc op => add_wire op acc) ops s.

(** The [EmailSendingError] that stands for a transport failure [e]:
    authentication, connection, or other. *)
Definition translated (e : exn) : exn :=
  match class_of e with
  | SMTPAuthenticationError =>
      Exn EmailSendingError
        [Lit "Authentication error: Unable to authenticate with SMTP server."]
  | SMTPConnectError =>
      Exn EmailSendingError
        [Lit "Connection error: Could not connect to SMTP server."]
  | _ =>
      Exn EmailSendingError
        [Lit "Failed to send the recovery email: "; StrOf e]
  end.

Definition not_found_dialog : dialog :=
  {| dlg_parent := true;
     dlg_title := "Error";
     dlg_text := [Lit "Email not found. Please try again."] |}.

Definition success_dialog : dialog :=
  {| dlg_parent := true;
     dlg_title := "Success";
     dlg_text := [Lit "A recovery email has been sent."] |}.

Definition error_dialog (e : exn) : dialog :=
  {| dlg_parent := true; dlg_title := "Error"; dlg_text := [StrOf e] |}.

(** The sender object as the typed record used by the handler, when both
    credentials are text. *)
Definition typed_sender (a : sender_attrs) : option EmailSender :=
  match attr_sender_email a, attr_sender_password a with
  | PStr e, PStr p =>
      Some {| smtp_server := attr_smtp_server a;
              smtp_port := attr_smtp_port a;
              sender_email := e;
              sender_password := p |}
  | _, _ => None
  end.

(** The dialog that [RecoveryWindow.__init__] adds for a config error. *)
Definition config_error_dialog (e : exn) : dialog :=
  {| dlg_parent := true;
     dlg_title := "Configuration Error";
     dlg_text := [StrOf e] |}.

Definition config_missing_error : exn :=
  Exn EmailConfigError
    [Lit "Config file not found at "; PathOf EMAIL_CONFIG_FILE].

Definition config_garbled_error : exn :=
  Exn EmailConfigError
    [Lit "Failed to decode email config: "; StrOf (Exn JSONDecodeError [Native])].

Definition config_blank_error : exn :=
  Exn EmailConfigError
    [Lit "Missing email or password in the configuration file."].

(** [config.get(k)] on a decoded object. *)
Definition config_value (k : string) (d : dict) : pyval :=
  match dict_lookup k d with Some x => x | None => PNone end.

(** The message of the check that [RecoveryWindow.__init__] repeats after
    [load_config]; it differs from [load_config]'s own by one word. *)
Definition init_check_message : list part :=
  [Lit "Missing email or password in configuration file."].

(** The message of the [raise] that follows [validate_users_db] in
    [load_users_db]. *)
Definition invalid_structure_message : list part :=
  [Lit "Invalid user database structure."].

Definition is_sendmail (op : smtp_op) : bool :=
  match op with Sendmail _ _ _ => true | _ => false end.

Definition args_of (e : exn) : list part :=
  match e with Exn _ a => a end.

(* ------------------------------------------------------------------ *)
(** ** Validation *)

Open Scope list_scope.

Ltac run := unfold bind, ret, raise, try_except; simpl.

Lemma validate_items_cons_ok (E : env) (u : string) (d : pyval)
    (rest : dict) (s : state) :
  record_ok E d = true ->
  validate_items E ((u, d) :: rest) s = validate_items E rest s.
Proof.
  intros Hd.
  destruct d; simpl in Hd; try discriminate.
  unfold has_key in Hd. simpl. run.
  destruct (dict_lookup "email" d) as [v|]; simpl in *; try discriminate.
  destruct (dict_lookup "password_hash" d); simpl in *; try discriminate.
  destruct v; simpl in *; try discriminate.
  now rewrite Hd.
Qed.

Lemma validate_items_skip (E : env) (l1 rest : dict) (s : state) :
  all_records_ok E l1 = true ->
  validate_items E (l1 ++ rest) s = validate_items E rest s.
Proof.
  induction l1 as [|[u d] l1 IH]; intros H; [reflexivity|].
  simpl in H. apply andb_prop in H. destruct H as [Hd Hl].
  change (((u, d) :: l1) ++ rest)%list with ((u, d) :: (l1 ++ rest))%list.
  rewrite validate_items_cons_ok by exact Hd.
  apply IH, Hl.
Qed.

Lemma validate_items_pass (E : env) (items : dict) (s : state) :
  all_records_ok E items = true ->
  validate_items E items s = (Ok true, s).
Proof.
  intros H.
  rewrite <- (app_nil_r items).
  now rewrite validate_items_skip.
Qed.

(** The record at which validation stops: its failure, whatever follows. *)
Lemma validate_items_offender (E : env) (u : string) (d : pyval)
    (rest : dict) (s : state) :
  record_ok E d = false ->
  exists e, validate_items E ((u, d) :: rest) s = (Raise e, s).
Proof.
  intros Hd.
  destruct d; simpl in *; run; eauto.
  - destruct (str_contains "email" s0); simpl; eauto.
    destruct (str_contains "password_hash" s0); simpl; eauto.
  - destruct (existsb (is_str "email") l); simpl; eauto.
    destruct (existsb (is_str "password_hash") l); simpl; eauto.
  - unfold has_key in Hd.
    destruct (dict_lookup "email" d) as [v|]; simpl in *; eauto.
    destruct (dict_lookup "password_hash" d); simpl in *; eauto.
    destruct v; simpl in *; eauto.
    rewrite Hd; simpl; eauto.
Qed.

Lemma all_records_ok_split (E : env) (items : dict) :
  all_records_ok E items = false ->
  exists l1 u d l2,
    items = (l1 ++ (u, d) :: l2)%list
    /\ all_records_ok E l1 = true /\ record_ok E d = false.
Proof.
  induction items as [|[u d] rest IH]; simpl; intros H; [discriminate|].
  destruct (record_ok E d) eqn:Hd; simpl in H.
  - destruct (IH H) as (l1 & u' & d' & l2 & -> & Hl & Hbad).
    exists ((u, d) :: l1)%list, u', d', l2. simpl. rewrite Hd.
    repeat split; assumption.
  - exists []%list, u, d, rest. repeat split; assumption.
Qed.

Lemma validate_items_fail (E : env) (items : dict) (s : state) :
  all_records_ok E items = false ->
  exists e, validate_items E items s = (Raise e, s).
Proof.
  intros H.
  destruct (all_records_ok_split E items H) as (l1 & u & d & l2 & -> & Hl & Hbad).
  rewrite validate_items_skip by exact Hl.
  now apply validate_items_offender.
Qed.

(** A typed record that fails a check is reported with its username. *)
Lemma validate_items_reports (E : env) (u : string) (r rest : dict)
    (s : state) :
  record_ok E (PDict r) = false ->
  (forall v, dict_lookup "email" r = Some v -> exists m, v = PStr m) ->
  validate_items E ((u, PDict r) :: rest) s
    = (Raise (Exn DatabaseError
                [Lit "Missing fields for user '"; Lit u; Lit "': ";
                 ReprOf (PDict r)]), s)
  \/ exists m,
       dict_lookup "email" r = Some (PStr m)
       /\ validate_items E ((u, PDict r) :: rest) s
          = (Raise (Exn DatabaseError
                      [Lit "Invalid email format for user '"; Lit u;
                       Lit "': "; Lit m]), s).
Proof.
  intros Hbad Htyped. simpl in Hbad. unfold has_key in Hbad.
  simpl. run.
  destruct (dict_lookup "email" r) as [v|] eqn:He; simpl in *; [|now left].
  destruct (dict_lookup "password_hash" r); simpl in *; [|now left].
  destruct (Htyped v eq_refl) as [m ->].
  right. exists m. split; [reflexivity|].
  simpl. now rewrite Hbad.
Qed.

(* ------------------------------------------------------------------ *)
(** ** Claims about validation and loading *)

(** [validate_users_db] returns [True] exactly when every record has both
    keys and an email that fully matches the pattern; it never returns
    [False]; otherwise it raises, and when the first offending record is a
    mapping whose email, if present, is text, the error is a
    [DatabaseError] whose message names that record's username. *)
Lemma validate_users_db_all_or_nothing (E : env) (db : dict) (s : state) :
  (validate_users_db E (PDict db) s = (Ok true, s)
   <-> all_records_ok E db = true)
  /\ (forall (b : bool) (s' : state),
        validate_users_db E (PDict db) s = (Ok b, s') -> b = true)
  /\ (all_records_ok E db = false ->
        exists e, validate_users_db E (PDict db) s = (Raise e, s))
  /\ (forall l1 u r l2,
        db = (l1 ++ (u, PDict r) :: l2)%list ->
        all_records_ok E l1 = true ->
        record_ok E (PDict r) = false ->
        (forall v, dict_lookup "email" r = Some v -> exists m, v = PStr m) ->
        validate_users_db E (PDict db) s
          = (Raise (Exn DatabaseError
                      [Lit "Missing fields for user '"; Lit u; Lit "': ";
                       ReprOf (PDict r)]), s)
        \/ exists m,
             dict_lookup "email" r = Some (PStr m)
             /\ email_regex E m = false
             /\ validate_users_db E (PDict db) s
                = (Raise (Exn DatabaseError
                            [Lit "Invalid email format for user '"; Lit u;
                             Lit "': "; Lit m]), s)).
Proof.
  assert (Hrun : validate_users_db E (PDict db) s = validate_items E db s)
    by reflexivity.
  rewrite Hrun.
  destruct (all_records_ok E db) eqn:Hall.
  - rewrite (validate_items_pass E db s Hall).
    repeat split; try congruence.
    intros l1 u r l2 -> Hl Hbad _.
    unfold all_records_ok in Hall. rewrite forallb_app in Hall.
    simpl in Hall. fold (all_records_ok E l1) in Hall.
    rewrite Hl in Hall. simpl in Hall. simpl in Hbad.
    rewrite Hbad in Hall. discriminate.
  - destruct (validate_items_fail E db s Hall) as [e He].
    rewrite He.
    repeat split; try congruence; eauto.
    intros l1 u r l2 Hdb Hl Hbad Htyped.
    rewrite <- He, Hdb, validate_items_skip by exact Hl.
    destruct (validate_items_reports E u r l2 s Hbad Htyped)
      as [Hm | (m & Hm & Hr)]; [now left|].
    right. exists m. repeat split; try assumption.
    simpl in Hbad. unfold has_key in Hbad. rewrite Hm in Hbad.
    destruct (dict_lookup "password_hash" r) eqn:Hp; simpl in Hbad;
      [exact Hbad|].
    exfalso. revert Hr. simpl. run. rewrite Hm, Hp. simpl. discriminate.
Qed.

Lemma validate_items_ill_typed (E : env) (u : string) (d : pyval)
    (rest : dict) (s : state) :
  ill_typed d = true ->
  validate_items E ((u, d) :: rest) s = (Raise (Exn TypeError [Native]), s).
Proof.
  destruct d as [ | b | n | f | t | l | r ]; simpl; intros H; run;
    try reflexivity.
  - apply andb_prop in H. destruct H as [-> ->]. reflexivity.
  - apply andb_prop in H. destruct H as [-> ->]. reflexivity.
  - unfold has_key in H.
    destruct (dict_lookup "password_hash" r); simpl in H; [|discriminate].
    destruct (dict_lookup "email" r) as [v|]; simpl; [|discriminate].
    destruct v; try reflexivity. discriminate.
Qed.

(** C9, on the code.  A record of the wrong type is not reported with its
    username.  After records that pass, a record that is not a container,
    or a mapping with both keys whose email is not text (for instance
    [null]), makes validation raise the [TypeError] of the [in] test, of
    the subscript or of [re.fullmatch]: an error that names no user and is
    not a [DatabaseError]. *)
Theorem validate_users_db_type_error_names_nobody (E : env)
    (l1 l2 : dict) (u : string) (d : pyval) (s : state) :
  all_records_ok E l1 = true ->
  ill_typed d = true ->
  record_ok E d = false
  /\ validate_users_db E (PDict (l1 ++ (u, d) :: l2)) s
     = (Raise (Exn TypeError [Native]), s).
Proof.
  intros Hl Hd. split.
  - destruct d as [ | b | n | f | t | l | r ]; try reflexivity.
    simpl in *. unfold has_key in *.
    destruct (dict_lookup "email" r) as [[]|]; simpl in *;
      rewrite ?andb_false_r in *; first [reflexivity | discriminate].
  - assert (Hrun : validate_users_db E (PDict (l1 ++ (u, d) :: l2)) s
                   = validate_items E (l1 ++ (u, d) :: l2) s) by reflexivity.
    rewrite Hrun, validate_items_skip by exact Hl.
    now apply validate_items_ill_typed.
Qed.

(** C9 on a store whose only record has [null] as email. *)
Lemma validate_users_db_type_error_names_nobody_witness :
  record_ok (env_with Absent)
    (PDict [("email", PNone); ("password_hash", PStr "h1")]) = false
  /\ validate_users_db (env_with Absent)
       (PDict ([] ++ ("alice",
                      PDict [("email", PNone); ("password_hash", PStr "h1")])
                 :: []))
       (window_with "")
     = (Raise (Exn TypeError [Native]), window_with "").
Proof.
  apply (validate_users_db_type_error_names_nobody (env_with Absent)
           [] [] "alice"
           (PDict [("email", PNone); ("password_hash", PStr "h1")])
           (window_with "")).
  - reflexivity.
  - reflexivity.
Defined.

Lemma validate_users_db_pass (E : env) (v : pyval) (s : state) :
  valid_store E v = true -> validate_users_db E v s = (Ok true, s).
Proof.
  destruct v; simpl; try discriminate.
  intros H. unfold validate_users_db. run. now apply validate_items_pass.
Qed.

Lemma validate_users_db_fail (E : env) (v : pyval) (s : state) :
  valid_store E v = false ->
  exists e, validate_users_db E v s = (Raise e, s).
Proof.
  destruct v; simpl; unfold validate_users_db; run; eauto.
  intros H. now apply validate_items_fail.
Qed.

Lemma load_users_db_valid (E : env) (data : pyval) (s : state) :
  fs E DB_FILE = Holds data ->
  valid_store E data = true ->
  load_users_db E s = (Ok data, s).
Proof.
  intros Hfs Hv. unfold load_users_db, path_exists, json_load.
  rewrite Hfs. run.
  now rewrite (validate_users_db_pass E data s Hv).
Qed.

Lemma load_users_db_invalid (E : env) (data : pyval) (s : state) :
  fs E DB_FILE = Holds data ->
  valid_store E data = false ->
  exists e,
    validate_users_db E data s = (Raise e, s)
    /\ load_users_db E s
       = (Ok (PDict []),
          add_dialog {| dlg_parent := false;
                        dlg_title := match class_of e with
                                     | FileNotFoundError => "File Error"
                                     | JSONDecodeError => "JSON Error"
                                     | _ => "Error"
                                     end;
                        dlg_text := match class_of e with
                                    | FileNotFoundError =>
                                        [Lit "Database file not found at ";
                                         PathOf DB_FILE]
                                    | JSONDecodeError =>
                                        [Lit "Failed to decode database JSON: ";
                                         StrOf e]
                                    | _ => [Lit "Unexpected error: "; StrOf e]
                                    end |} s).
Proof.
  intros Hfs Hv.
  destruct (validate_users_db_fail E data s Hv) as [e He].
  exists e. split; [exact He|].
  unfold load_users_db, path_exists, json_load.
  rewrite Hfs. run. rewrite He.
  destruct e as [c a]. destruct c; reflexivity.
Qed.

Lemma load_users_db_unreadable (E : env) (s : state) :
  fs E DB_FILE = Unreadable ->
  load_users_db E s
  = (Ok (PDict []),
     add_dialog
       {| dlg_parent := false;
          dlg_title := "Error";
          dlg_text := [Lit "Unexpected error: ";
                       StrOf (Exn OtherError [Native])] |} s).
Proof.
  intros Hfs. unfold load_users_db, path_exists, json_load. now rewrite Hfs.
Qed.

(** C1, as the code has it.  [load_users_db] never raises.  When the store
    file is missing, cannot be read, is rejected by the JSON decoder, or
    holds a value that fails validation, the failure is caught inside the
    function, one dialog without parent is shown, and the empty mapping is
    returned; otherwise the whole validated mapping is returned and
    nothing is shown.  No partial mapping is ever returned. *)
Theorem load_users_db_swallows_failures (E : env) (s : state) :
  (fs E DB_FILE = Absent ->
     load_users_db E s
     = (Ok (PDict []),
        add_dialog
          {| dlg_parent := false;
             dlg_title := "Error";
             dlg_text :=
               [Lit "Unexpected error: ";
                StrOf (Exn DatabaseError
                         [Lit "Database file not found at "; PathOf DB_FILE])]
          |} s))
  /\ (fs E DB_FILE = Garbled ->
        load_users_db E s
        = (Ok (PDict []),
           add_dialog
             {| dlg_parent := false;
                dlg_title := "JSON Error";
                dlg_text :=
                  [Lit "Failed to decode database JSON: ";
                   StrOf (Exn JSONDecodeError [Native])] |} s))
  /\ (forall data,
        fs E DB_FILE = Holds data -> valid_store E data = false ->
        exists d,
          dlg_parent d = false
          /\ load_users_db E s = (Ok (PDict []), add_dialog d s))
  /\ (forall data,
        fs E DB_FILE = Holds data -> valid_store E data = true ->
        load_users_db E s = (Ok data, s))
  /\ (forall e s', load_users_db E s <> (Raise e, s'))
  /\ (fs E DB_FILE = Unreadable ->
        load_users_db E s
        = (Ok (PDict []),
           add_dialog
             {| dlg_parent := false;
                dlg_title := "Error";
                dlg_text := [Lit "Unexpected error: ";
                             StrOf (Exn OtherError [Native])] |} s)).
Proof.
  split; [|split; [|split; [|split; [|split]]]].
  - intros Hfs. unfold load_users_db, path_exists. now rewrite Hfs.
  - intros Hfs. unfold load_users_db, path_exists, json_load. now rewrite Hfs.
  - intros data Hfs Hv.
    destruct (load_users_db_invalid E data s Hfs Hv) as (e & _ & ->).
    eexists. split; [|reflexivity]. reflexivity.
  - intros data Hfs Hv. now apply load_users_db_valid.
  - intros e s'.
    destruct (fs E DB_FILE) as [| | |data] eqn:Hfs.
    + unfold load_users_db, path_exists. rewrite Hfs. discriminate.
    + unfold load_users_db, path_exists, json_load. rewrite Hfs. discriminate.
    + rewrite (load_users_db_unreadable E s Hfs). discriminate.
    + destruct (valid_store E data) eqn:Hv.
      * rewrite (load_users_db_valid E data s Hfs Hv). discriminate.
      * destruct (load_users_db_invalid E data s Hfs Hv) as (e' & _ & ->).
        discriminate.
  - apply load_users_db_unreadable.
Qed.

(** C1, as the code has it, at a store whose only record lacks
    [password_hash]. *)
Lemma load_users_db_swallows_failures_witness :
  exists d,
    dlg_parent d = false
    /\ load_users_db
         (env_with (Holds (PDict [("alice", PDict [("email", PStr "A@X.com")])])))
         (window_with "")
       = (Ok (PDict []), add_dialog d (window_with "")).
Proof.
  apply (proj1 (proj2 (proj2
           (load_users_db_swallows_failures
              (env_with (Holds (PDict [("alice",
                                        PDict [("email", PStr "A@X.com")])])))
              (window_with "")))))
    with (data := PDict [("alice", PDict [("email", PStr "A@X.com")])]).
  - reflexivity.
  - reflexivity.
Defined.

(** C1 as stated fails: with the store file missing, and with a record
    lacking [password_hash], the load returns the empty mapping to its
    caller and raises nothing. *)
Lemma load_users_db_returns_empty_on_failure :
  fst (load_users_db (env_with Absent) (window_with "")) = Ok (PDict [])
  /\ fst (load_users_db
            (env_with (Holds (PDict [("alice",
                                      PDict [("email", PStr "A@X.com")])])))
            (window_with ""))
     = Ok (PDict [])
  /\ ~ (exists e,
          fst (load_users_db (env_with Absent) (window_with "")) = Raise e).
Proof.
  repeat split.
  intros [e He]. discriminate He.
Qed.

(* ------------------------------------------------------------------ *)
(** ** Trimming and case folding *)

Lemma isspace_lower_char (c : ascii) : isspace (lower_char c) = isspace c.
Proof.
  destruct c as [[] [] [] [] [] [] [] []]; reflexivity.
Qed.

Lemma lower_lstrip (s : string) : lower (lstrip s) = lstrip (lower s).
Proof.
  induction s as [|c s IH]; simpl; [reflexivity|].
  rewrite isspace_lower_char.
  destruct (isspace c); [exact IH | reflexivity].
Qed.

Lemma lower_rstrip (s : string) : lower (rstrip s) = rstrip (lower s).
Proof.
  induction s as [|c s IH]; simpl; [reflexivity|].
  rewrite <- IH, isspace_lower_char.
  destruct (rstrip s); simpl; [|reflexivity].
  destruct (isspace c); reflexivity.
Qed.

Lemma lower_strip (s : string) : lower (strip s) = strip (lower s).
Proof.
  unfold strip. now rewrite lower_rstrip, lower_lstrip.
Qed.

Lemma lstrip_pad (ws s : string) :
  all_space ws = true -> lstrip (ws ++ s)%string = lstrip s.
Proof.
  induction ws as [|c ws IH]; simpl; intros H; [reflexivity|].
  apply andb_prop in H. destruct H as [Hc Hws].
  rewrite Hc. now apply IH.
Qed.

Lemma rstrip_all_space (ws : string) :
  all_space ws = true -> rstrip ws = EmptyString.
Proof.
  induction ws as [|c ws IH]; simpl; intros H; [reflexivity|].
  apply andb_prop in H. destruct H as [Hc Hws].
  now rewrite (IH Hws), Hc.
Qed.

Lemma rstrip_pad (s ws : string) :
  all_space ws = true -> rstrip (s ++ ws)%string = rstrip s.
Proof.
  intros H. induction s as [|c s IH]; simpl.
  - now apply rstrip_all_space.
  - now rewrite IH.
Qed.

Lemma lstrip_all_space (ws : string) :
  all_space ws = true -> lstrip ws = EmptyString.
Proof.
  induction ws as [|c ws IH]; simpl; intros H; [reflexivity|].
  apply andb_prop in H. destruct H as [Hc Hws].
  rewrite Hc. now apply IH.
Qed.

Lemma strip_pad_right (s ws : string) :
  all_space ws = true -> strip (s ++ ws)%string = strip s.
Proof.
  intros H. unfold strip. induction s as [|c s IH]; simpl.
  - now rewrite (lstrip_all_space ws H).
  - destruct (isspace c); [exact IH|].
    change (String c (s ++ ws)%string) with (String c s ++ ws)%string.
    now apply rstrip_pad.
Qed.

(** Whitespace around the text is ignored by [strip]. *)
Lemma strip_pad (ws1 s ws2 : string) :
  all_space ws1 = true -> all_space ws2 = true ->
  strip (ws1 ++ s ++ ws2)%string = strip s.
Proof.
  intros H1 H2.
  transitivity (strip (s ++ ws2)%string).
  - unfold strip. now rewrite lstrip_pad.
  - now apply strip_pad_right.
Qed.

(** Padding and letter case do not change the normalised text. *)
Lemma normalize_insensitive (ws1 q q' ws2 : string) :
  all_space ws1 = true -> all_space ws2 = true -> lower q' = lower q ->
  normalize (ws1 ++ q' ++ ws2)%string = normalize q.
Proof.
  intros H1 H2 Hq. unfold normalize.
  rewrite strip_pad by assumption.
  now rewrite !lower_strip, Hq.
Qed.

(* ------------------------------------------------------------------ *)
(** ** Sending *)

Lemma translated_class (e : exn) : class_of (translated e) = EmailSendingError.
Proof.
  unfold translated. destruct (class_of e); reflexivity.
Qed.

Lemma send_recovery_email_outcome (E : env) (self : EmailSender)
    (r u : string) (s : state) :
  send_recovery_email E self r u s
  = (match raised_in_try E self r u with
     | None => Ok tt
     | Some e => Raise (translated e)
     end,
     add_wires (completed E (smtp_session self r u)) s).
Proof.
  unfold send_recovery_email, try_except, bind, with_exit, smtp_call,
    raised_in_try, smtp_session.
  simpl.
  repeat match goal with
         | |- context [net E ?op] => destruct (net E op) eqn:?; simpl
         end;
    try reflexivity;
    match goal with
    | |- context [translated ?e] =>
        unfold translated; destruct e as [[] ?]; reflexivity
    end.
Qed.

Lemma raised_in_try_none (E : env) (self : EmailSender) (r u : string) :
  raised_in_try E self r u = None ->
  first_failure E (smtp_session self r u) = None /\ net E Quit = None.
Proof.
  unfold raised_in_try, smtp_session. simpl.
  destruct (net E (SMTP (smtp_server self) (smtp_port self)));
    [discriminate|].
  destruct (net E Quit); [discriminate|]. auto.
Qed.

Lemma raised_in_try_accepted (E : env) (self : EmailSender) (r u : string) :
  first_failure E (smtp_session self r u) = None ->
  raised_in_try E self r u = net E Quit.
Proof.
  unfold raised_in_try, smtp_session. simpl.
  destruct (net E (SMTP (smtp_server self) (smtp_port self)));
    [discriminate|].
  intros ->. now destruct (net E Quit).
Qed.

Lemma raised_in_try_net (E E' : env) (self : EmailSender) (r u : string) :
  net E' = net E ->
  raised_in_try E' self r u = raised_in_try E self r u.
Proof.
  intros H. unfold raised_in_try. rewrite H.
  destruct (net E (SMTP (smtp_server self) (smtp_port self)));
    [reflexivity|].
  destruct (net E Quit); [reflexivity|].
  clear - H. induction (smtp_session self r u) as [|op ops IH]; simpl;
    [reflexivity|].
  rewrite H, IH. reflexivity.
Qed.

Lemma first_failure_net (E E' : env) (ops : list smtp_op) :
  net E' = net E ->
  first_failure E' ops = first_failure E ops
  /\ completed E' ops = completed E ops.
Proof.
  intros H. induction ops as [|op ops [IH1 IH2]]; simpl; [easy|].
  rewrite H, IH1, IH2. destruct (net E op); easy.
Qed.

(** The SMTP calls touch nothing but the wire. *)
Lemma add_wires_frame (ops : list smtp_op) (s : state) :
  email_input (add_wires ops s) = email_input s
  /\ email_sender (add_wires ops s) = email_sender s
  /\ is_open (add_wires ops s) = is_open s
  /\ dialogs (add_wires ops s) = dialogs s
  /\ wire (add_wires ops s) = wire s ++ ops.
Proof.
  unfold add_wires. revert s.
  induction ops as [|op ops IH]; intros s; simpl.
  - now rewrite app_nil_r.
  - destruct (IH (add_wire op s)) as (H1 & H2 & H3 & H4 & H5).
    rewrite H1, H2, H3, H4, H5. simpl. now rewrite <- app_assoc.
Qed.

Lemma add_wires_email_input (ops : list smtp_op) (s : state) :
  email_input (add_wires ops s) = email_input s.
Proof. apply add_wires_frame. Qed.

Lemma add_wires_is_open (ops : list smtp_op) (s : state) :
  is_open (add_wires ops s) = is_open s.
Proof. apply add_wires_frame. Qed.

Lemma add_wires_dialogs (ops : list smtp_op) (s : state) :
  dialogs (add_wires ops s) = dialogs s.
Proof. apply add_wires_frame. Qed.

Lemma add_wires_wire (ops : list smtp_op) (s : state) :
  wire (add_wires ops s) = wire s ++ ops.
Proof. apply add_wires_frame. Qed.

Create Rewrite HintDb frame.
#[local] Hint Rewrite add_wires_email_input add_wires_is_open
  add_wires_dialogs add_wires_wire : frame.

(** Reads a field of a state built by the handler. *)
Ltac read_state :=
  unfold set_open, set_input, add_dialog;
  cbn [email_input is_open dialogs wire];
  autorewrite with frame.

Lemma completed_all (E : env) (ops : list smtp_op) :
  first_failure E ops = None -> completed E ops = ops.
Proof.
  induction ops as [|op ops IH]; simpl; [reflexivity|].
  destruct (net E op); [discriminate|]. intros H. now rewrite IH.
Qed.

(* ------------------------------------------------------------------ *)
(** ** The submit handler *)

Lemma recover_password_lookup_raises (E : env) (s s1 : state) (e : exn) :
  find_user_by_email E (email_input s) s = (Raise e, s1) ->
  recover_password E s = (Raise e, s1).
Proof.
  intros H. unfold recover_password, bind, input_text. now rewrite H.
Qed.

Lemma recover_password_falsy_user (E : env) (s s1 : state) :
  find_user_by_email E (email_input s) s = (Ok EmptyString, s1) ->
  recover_password E s
  = (Ok tt, set_input EmptyString (add_dialog not_found_dialog s1)).
Proof.
  intros H. unfold recover_password, bind, input_text. now rewrite H.
Qed.

Lemma recover_password_truthy_user (E : env) (s s1 : state) (user : string) :
  find_user_by_email E (email_input s) s = (Ok user, s1) ->
  truthy_str user = true ->
  let ops := smtp_session (email_sender s1) (email_input s) user in
  recover_password E s
  = (Ok tt,
     match raised_in_try E (email_sender s1) (email_input s) user with
     | None => set_open false (add_dialog success_dialog (add_wires ops s1))
     | Some e =>
         add_dialog (error_dialog (translated e))
           (add_wires (completed E ops) s1)
     end).
Proof.
  intros H Hu ops. unfold recover_password, bind at 1 2, input_text.
  rewrite H, Hu.
  unfold try_except, bind, self_email_sender.
  rewrite send_recovery_email_outcome. fold ops.
  destruct (raised_in_try E (email_sender s1) (email_input s) user)
    eqn:Hf; cbv beta iota.
  - reflexivity.
  - destruct (raised_in_try_none E _ _ _ Hf) as [Hff _]. fold ops in Hff.
    rewrite (completed_all E ops Hff). reflexivity.
Qed.

(* ------------------------------------------------------------------ *)
(** ** Lookup *)

Lemma record_ok_stored_email (E : env) (d : pyval) :
  record_ok E d = true ->
  exists r e, d = PDict r /\ dict_lookup "email" r = Some (PStr e)
              /\ stored_email d = Some e.
Proof.
  destruct d; simpl; try discriminate.
  intros H. exists d.
  destruct (dict_lookup "email" d) as [[]|]; simpl in *;
    try (rewrite andb_false_r in H; discriminate).
  - eauto.
Qed.

Lemma find_items_first_match (E : env) (q : string) (db : dict) (s : state) :
  all_records_ok E db = true ->
  find_items (normalize q) db s = (lookup_result q db, s).
Proof.
  unfold lookup_result, first_match.
  induction db as [|[u d] rest IH]; simpl; intros H; [reflexivity|].
  apply andb_prop in H. destruct H as [Hd Hrest].
  destruct (record_ok_stored_email E d Hd) as (r & e & -> & He & Hs).
  unfold matches at 1. simpl fst; simpl snd. rewrite Hs.
  simpl. run. rewrite He. simpl.
  fold (normalize e).
  destruct (String.eqb (normalize e) (normalize q)); [reflexivity|].
  apply IH, Hrest.
Qed.

Lemma first_match_directory (q : string) (db db' : dict) :
  directory db = directory db' -> first_match q db = first_match q db'.
Proof.
  unfold first_match. revert db'.
  induction db as [|[u d] rest IH]; intros [|[u' d'] rest'] H;
    simpl in *; try discriminate; [reflexivity|].
  injection H as Hu Hd Hrest. subst u'.
  unfold matches at 1 3. simpl.
  destruct (stored_email d) as [e|], (stored_email d') as [e'|];
    simpl in Hd; try discriminate.
  - injection Hd as Hd. rewrite Hd.
    destruct (String.eqb (normalize e') (normalize q)); [reflexivity|].
    now apply IH.
  - now apply IH.
Qed.

Lemma load_users_db_not_ok (E : env) (s : state) :
  store_ok E = false ->
  exists d, load_users_db E s = (Ok (PDict []), add_dialog d s).
Proof.
  unfold store_ok. intros H.
  destruct (fs E DB_FILE) as [| | |data] eqn:Hfs.
  - unfold load_users_db, path_exists. rewrite Hfs. eexists. reflexivity.
  - unfold load_users_db, path_exists, json_load. rewrite Hfs.
    eexists. reflexivity.
  - rewrite (load_users_db_unreadable E s Hfs). eexists. reflexivity.
  - destruct (load_users_db_invalid E data s Hfs H) as (e & _ & ->).
    eexists. reflexivity.
Qed.

Lemma find_user_by_email_not_ok (E : env) (q : string) (s : state) :
  store_ok E = false ->
  exists d,
    find_user_by_email E q s
    = (Raise (Exn UserNotFoundError [Lit (normalize q)]), add_dialog d s).
Proof.
  intros H. destruct (load_users_db_not_ok E s H) as [d Hd].
  exists d. unfold find_user_by_email, bind at 1. now rewrite Hd.
Qed.

Lemma first_match_key (q : string) (db : dict) (u : string) :
  first_match q db = Some u -> exists d, In (u, d) db /\ matches q (u, d) = true.
Proof.
  unfold first_match. intros H.
  destruct (find (matches q) db) as [[u' d]|] eqn:Hf; [|discriminate].
  injection H as <-. apply find_some in Hf. now exists d.
Qed.

Lemma first_match_first (q : string) (l1 l2 : dict) (u : string) (d : pyval) :
  (forall entry, In entry l1 -> matches q entry = false) ->
  matches q (u, d) = true ->
  first_match q (l1 ++ (u, d) :: l2) = Some u.
Proof.
  unfold first_match. intros Hl Hm.
  induction l1 as [|a l1 IH]; simpl.
  - now rewrite Hm.
  - rewrite (Hl a (or_introl eq_refl)).
    apply IH. intros entry Hin. apply Hl. now right.
Qed.

(* ------------------------------------------------------------------ *)
(** ** Lookup in a well-formed store *)

Section WellFormedStore.

Variable E : env.
Variable db : dict.
Hypothesis store_file : fs E DB_FILE = Holds (PDict db).
Hypothesis store_valid : all_records_ok E db = true.

Lemma find_user_by_email_valid (q : string) (s : state) :
  find_user_by_email E q s = (lookup_result q db, s).
Proof.
  unfold find_user_by_email.
  fold (normalize q). unfold bind at 1.
  rewrite (load_users_db_valid E (PDict db) s store_file store_valid).
  simpl. run. now apply (find_items_first_match E).
Qed.

(** C3.  On a well-formed store the lookup returns the username of the
    first record whose email equals the query once both are trimmed and
    lower-cased, and raises [UserNotFoundError] when there is none; so
    whitespace around the query and the letter case of the query do not
    change the outcome, and two stores with the same usernames and the
    same normalised emails answer alike.  For the store
    [{"alice": {"email": "A@X.com", "password_hash": "h1"}}] the query
    ["  a@x.com "] returns ["alice"]. *)
Theorem find_user_by_email_normalizes (s : state) :
  (forall q, find_user_by_email E q s = (lookup_result q db, s))
  /\ (forall q entry,
        matches q entry = true
        <-> exists e, stored_email (snd entry) = Some e
                      /\ lower (strip e) = lower (strip q))
  /\ (forall ws1 q q' ws2,
        all_space ws1 = true -> all_space ws2 = true -> lower q' = lower q ->
        find_user_by_email E (ws1 ++ q' ++ ws2)%string s
        = find_user_by_email E q s)
  /\ (forall E' db' q,
        fs E' DB_FILE = Holds (PDict db') ->
        all_records_ok E' db' = true ->
        directory db' = directory db ->
        find_user_by_email E' q s = find_user_by_email E q s)
  /\ (db = alice_store ->
      find_user_by_email E "  a@x.com " s = (Ok "alice", s)).
Proof.
  split; [intros q; apply find_user_by_email_valid|].
split; [|split; [|split]].
  - intros q [u d]. unfold matches, normalize. simpl.
    destruct (stored_email d) as [e|]; split.
    + intros H. exists e. split; [reflexivity|]. now apply String.eqb_eq.
    + intros (e' & He & Heq). injection He as <-. now apply String.eqb_eq.
    + discriminate.
    + intros (e' & He & _). discriminate.
  - intros ws1 q q' ws2 H1 H2 Hq. rewrite !find_user_by_email_valid.
    unfold lookup_result, first_match, matches.
    now rewrite (normalize_insensitive ws1 q q' ws2 H1 H2 Hq).
  - intros E' db' q Hfs' Hv' Hdir.
    rewrite find_user_by_email_valid.
    unfold find_user_by_email. fold (normalize q). unfold bind at 1.
    rewrite (load_users_db_valid E' (PDict db') s Hfs' Hv').
    simpl. run. rewrite (find_items_first_match E' q db' s Hv').
    unfold lookup_result. now rewrite (first_match_directory q db' db Hdir).
  - intros Hdb. rewrite find_user_by_email_valid. now rewrite Hdb.
Qed.

(** C7.  When two different usernames of a well-formed store have records
    that both match the query, and no record before the first of them
    matches, the lookup returns the first of them. *)
Theorem find_user_by_email_first_wins (l1 l2 l3 : dict)
    (u1 u2 : string) (d1 d2 : pyval) (q : string) (s : state) :
  db = l1 ++ (u1, d1) :: l2 ++ (u2, d2) :: l3 ->
  u1 <> u2 ->
  matches q (u1, d1) = true ->
  matches q (u2, d2) = true ->
  (forall entry, In entry l1 -> matches q entry = false) ->
  find_user_by_email E q s = (Ok u1, s).
Proof.
  intros Hdb _ Hm1 _ Hl1.
  rewrite find_user_by_email_valid.
  unfold lookup_result. rewrite Hdb.
  now rewrite (first_match_first q l1 (l2 ++ (u2, d2) :: l3) u1 d1 Hl1 Hm1).
Qed.

(** C2, on the code.  When the submitted email matches no record of a
    well-formed store, the [UserNotFoundError] raised by the lookup
    leaves [recover_password] uncaught: the handler ends by raising, no
    dialog is shown, and the input field keeps its text. *)
Theorem recover_password_unknown_email_escapes (s : state) :
  first_match (email_input s) db = None ->
  recover_password E s
  = (Raise (Exn UserNotFoundError [Lit (normalize (email_input s))]), s).
Proof.
  intros Hnone.
  apply recover_password_lookup_raises.
  rewrite find_user_by_email_valid.
  unfold lookup_result. now rewrite Hnone.
Qed.

End WellFormedStore.

(** C3 at the scenario of the spec. *)
Lemma find_user_by_email_normalizes_witness :
  find_user_by_email (env_with (Holds (PDict alice_store))) "  a@x.com "
    (window_with "")
  = (Ok "alice", window_with "").
Proof.
  apply (find_user_by_email_normalizes
           (env_with (Holds (PDict alice_store))) alice_store).
  - reflexivity.
  - reflexivity.
  - reflexivity.
Defined.

(** C7 on a store where alice and bob share an address. *)
Lemma find_user_by_email_first_wins_witness :
  find_user_by_email (env_with (Holds (PDict twin_store))) "a@X.COM"
    (window_with "")
  = (Ok "alice", window_with "").
Proof.
  apply (find_user_by_email_first_wins
           (env_with (Holds (PDict twin_store))) twin_store
           eq_refl eq_refl [] [] []
           "alice" "bob" (user_record "A@X.com" "h1")
           (user_record "a@x.com" "h2")).
  - reflexivity.
  - discriminate.
  - reflexivity.
  - reflexivity.
  - intros entry [].
Defined.

(** C2 at the store of the spec's scenario and the input [bob@x.com]. *)
Lemma recover_password_unknown_email_escapes_witness :
  recover_password (env_with (Holds (PDict alice_store)))
    (window_with "bob@x.com")
  = (Raise (Exn UserNotFoundError [Lit "bob@x.com"]), window_with "bob@x.com").
Proof.
  apply (recover_password_unknown_email_escapes
           (env_with (Holds (PDict alice_store))) alice_store
           eq_refl eq_refl (window_with "bob@x.com")).
  reflexivity.
Defined.

(* ------------------------------------------------------------------ *)
(** ** Lookup in any store *)

(** Every outcome of the lookup: a key of the well-formed store whose
    record is the first to match, or [UserNotFoundError]. *)
Lemma find_user_by_email_cases (E : env) (q : string) (s : state) :
  (exists db u,
      fs E DB_FILE = Holds (PDict db) /\ all_records_ok E db = true
      /\ first_match q db = Some u
      /\ find_user_by_email E q s = (Ok u, s))
  \/ (exists s',
         find_user_by_email E q s
         = (Raise (Exn UserNotFoundError [Lit (normalize q)]), s')).
Proof.
  destruct (store_ok E) eqn:Hok.
  - unfold store_ok in Hok.
    destruct (fs E DB_FILE) as [| | |data] eqn:Hfs; try discriminate.
    destruct data; try discriminate. simpl in Hok.
    rewrite (find_user_by_email_valid E d Hfs Hok q s).
    unfold lookup_result.
    destruct (first_match q d) as [u|] eqn:Hm.
    + left. exists d, u. auto.
    + right. eauto.
  - right. destruct (find_user_by_email_not_ok E q s Hok) as [d Hd]. eauto.
Qed.

Lemma find_user_by_email_ok_state (E : env) (q u : string) (s s1 : state) :
  find_user_by_email E q s = (Ok u, s1) -> s1 = s.
Proof.
  intros H.
  destruct (find_user_by_email_cases E q s)
    as [(db & u' & _ & _ & _ & Hf) | (s' & Hf)];
    rewrite Hf in H; [now injection H | discriminate].
Qed.

Lemma truthy_str_nonempty (u : string) :
  truthy_str u = true <-> u <> EmptyString.
Proof.
  destruct u; simpl; split; congruence.
Qed.

(** C8.  After the lookup has returned a non-empty username: when the send
    returns, the handler shows the success dialog and closes the window;
    when the send raises, the handler shows an error dialog whose text is
    the message of the raised [EmailSendingError], the window stays open,
    and the input field keeps its text. *)
Theorem recover_password_after_send (E : env) (s s1 : state) (user : string) :
  find_user_by_email E (email_input s) s = (Ok user, s1) ->
  truthy_str user = true ->
  match fst (send_recovery_email E (email_sender s1) (email_input s) user s1)
  with
  | Ok _ =>
      exists s',
        recover_password E s = (Ok tt, s')
        /\ is_open s' = false
        /\ dialogs s' = dialogs s ++ [success_dialog]
  | Raise e =>
      exists s',
        recover_password E s = (Ok tt, s')
        /\ is_open s' = is_open s
        /\ email_input s' = email_input s
        /\ dialogs s' = dialogs s ++ [error_dialog e]
        /\ class_of e = EmailSendingError
  end.
Proof.
  intros Hfind Hu.
  pose proof (find_user_by_email_ok_state E _ _ _ _ Hfind) as ->.
  rewrite send_recovery_email_outcome.
  rewrite (recover_password_truthy_user E s s user Hfind Hu).
  cbv zeta.
  set (ops := smtp_session (email_sender s) (email_input s) user).
  destruct (raised_in_try E (email_sender s) (email_input s) user) as [e|];
    cbn [fst]; eexists; (split; [reflexivity|]).
  - read_state. repeat split. apply translated_class.
  - read_state. now split.
Qed.

(** C8 with a server that rejects the credentials: the authentication
    failure is shown, the window stays open and the input is retained. *)
Lemma recover_password_after_send_witness :
  exists s',
    recover_password (env_rejecting (Holds (PDict alice_store)))
      (window_with "a@x.com") = (Ok tt, s')
    /\ is_open s' = true
    /\ email_input s' = "a@x.com"
    /\ dialogs s'
       = [error_dialog
            (Exn EmailSendingError
               [Lit "Authentication error: Unable to authenticate with SMTP server."])]
    /\ class_of
         (Exn EmailSendingError
            [Lit "Authentication error: Unable to authenticate with SMTP server."])
       = EmailSendingError.
Proof.
  apply (recover_password_after_send
           (env_rejecting (Holds (PDict alice_store)))
           (window_with "a@x.com") (window_with "a@x.com") "alice").
  - reflexivity.
  - reflexivity.
Defined.

(* ------------------------------------------------------------------ *)
(** ** Claims about the dispatcher *)

(** What [send_recovery_email] raises is an [EmailSendingError] chosen by
    the class of the exception that reaches the [except] clauses. *)
Lemma send_recovery_email_translation (E : env) (self : EmailSender)
    (r u : string) (s s' : state) (e : exn) :
  send_recovery_email E self r u s = (Raise e, s') ->
  class_of e = EmailSendingError
  /\ exists e0, raised_in_try E self r u = Some e0 /\ e = translated e0.
Proof.
  rewrite send_recovery_email_outcome.
  destruct (raised_in_try E self r u) as [e0|]; [|discriminate].
  intros H. injection H as <- _. split; [apply translated_class|].
  now exists e0.
Qed.

(** C6, on the code.  Once the connection is made, a QUIT that the server
    refuses when the [with] block is left decides what
    [send_recovery_email] raises: the [EmailSendingError] built from the
    exception of [SMTP.__exit__], whatever happened inside the block.  A
    login refused with [SMTPAuthenticationError] then surfaces with the
    generic message, not the authentication one. *)
Theorem send_recovery_email_exit_masks_cause (E : env) (self : EmailSender)
    (r u : string) (s : state) (e y : exn) :
  net E (SMTP (smtp_server self) (smtp_port self)) = None ->
  net E Starttls = None ->
  net E (Login (sender_email self) (sender_password self)) = Some e ->
  class_of e = SMTPAuthenticationError ->
  net E Quit = Some y ->
  class_of y = OtherError ->
  send_recovery_email E self r u s
  = (Raise (Exn EmailSendingError
              [Lit "Failed to send the recovery email: "; StrOf y]),
     add_wire Starttls
       (add_wire (SMTP (smtp_server self) (smtp_port self)) s)).
Proof.
  intros Hc Ht Hl _ Hq Hy.
  rewrite send_recovery_email_outcome.
  unfold raised_in_try, smtp_session. simpl.
  rewrite Hc, Ht, Hl, Hq. unfold translated. now rewrite Hy.
Qed.

(** C6 with a server that rejects the credentials and then answers QUIT
    with a reply other than 221. *)
Lemma send_recovery_email_exit_masks_cause_witness :
  send_recovery_email (env_full Absent Absent rejecting_unclean_net)
    gmail_sender "a@x.com" "alice" (window_with "a@x.com")
  = (Raise (Exn EmailSendingError
              [Lit "Failed to send the recovery email: ";
               StrOf (Exn OtherError [Native])]),
     add_wire Starttls
       (add_wire (SMTP (smtp_server gmail_sender) (smtp_port gmail_sender))
          (window_with "a@x.com"))).
Proof.
  apply (send_recovery_email_exit_masks_cause
           (env_full Absent Absent rejecting_unclean_net) gmail_sender
           "a@x.com" "alice" (window_with "a@x.com")
           (Exn SMTPAuthenticationError [Native])
           (Exn OtherError [Native])).
  - reflexivity.
  - reflexivity.
  - reflexivity.
  - reflexivity.
  - reflexivity.
  - reflexivity.
Defined.

Lemma prefix_app (n b : string) : String.prefix n (n ++ b)%string = true.
Proof.
  induction n as [|c n IH]; simpl.
  - now destruct b.
  - destruct (ascii_dec c c) as [_|Hc]; [exact IH | now elim Hc].
Qed.

Lemma str_contains_here (n b : string) : str_contains n (n ++ b)%string = true.
Proof.
  destruct n as [|c n].
  - now destruct b.
  - simpl. destruct (ascii_dec c c) as [_|Hc]; [|now elim Hc].
    now rewrite prefix_app.
Qed.

Lemma str_contains_later (n a b : string) :
  str_contains n b = true -> str_contains n (a ++ b)%string = true.
Proof.
  intros H. induction a as [|c a IH]; [exact H|].
  simpl. now destruct (match n with EmptyString => true | _ => _ end).
Qed.

Lemma recover_password_same_directory (E E' : env) (db db' : dict)
    (s : state) :
  net E' = net E ->
  fs E DB_FILE = Holds (PDict db) -> all_records_ok E db = true ->
  fs E' DB_FILE = Holds (PDict db') -> all_records_ok E' db' = true ->
  directory db' = directory db ->
  recover_password E' s = recover_password E s.
Proof.
  intros Hnet Hfs Hv Hfs' Hv' Hdir.
  pose proof (find_user_by_email_valid E db Hfs Hv (email_input s) s) as Hf.
  pose proof (find_user_by_email_valid E' db' Hfs' Hv' (email_input s) s) as Hf'.
  unfold lookup_result in Hf, Hf'.
  rewrite (first_match_directory (email_input s) db' db Hdir) in Hf'.
  destruct (first_match (email_input s) db) as [u|].
  - destruct (truthy_str u) eqn:Hu.
    + rewrite (recover_password_truthy_user E s s u Hf Hu).
      rewrite (recover_password_truthy_user E' s s u Hf' Hu).
      cbv zeta.
      destruct (first_failure_net E E'
                  (smtp_session (email_sender s) (email_input s) u) Hnet)
        as [_ ->].
      now rewrite (raised_in_try_net E E' _ _ _ Hnet).
    + destruct u; [|discriminate].
      rewrite (recover_password_falsy_user E s s Hf).
      now rewrite (recover_password_falsy_user E' s s Hf').
  - rewrite (recover_password_lookup_raises E s s _ Hf).
    now rewrite (recover_password_lookup_raises E' s s _ Hf').
Qed.

Lemma completed_sendmail (E : env) (self : EmailSender) (r u : string)
    (op : smtp_op) :
  In op (completed E (smtp_session self r u)) ->
  is_sendmail op = true ->
  op = Sendmail (sender_email self) r
         {| msg_From := sender_email self;
            msg_To := r;
            msg_Subject := recovery_subject;
            msg_body := recovery_body u |}.
Proof.
  unfold smtp_session. simpl.
  repeat match goal with
         | |- context [net E ?o] => destruct (net E o); simpl
         end;
    intros H Hs;
    repeat match goal with
           | H : _ \/ _ |- _ => destruct H
           | H : False |- _ => destruct H
           end;
    subst; first [reflexivity | discriminate Hs].
Qed.

(** C5.  For every recipient and username, [send_recovery_email] builds
    one message: addressed to the recipient, with the fixed subject
    [Password Recovery] and the body written out below, which contains the
    username and the literal text [['password_hash']].  Every [sendmail]
    the function makes carries exactly this message, and it is made
    whenever the network accepts the four calls.  No stored secret enters
    it: the function does not receive one, and the handler behaves alike on
    two well-formed stores with the same usernames and emails, whatever
    their password hashes. *)
Theorem send_recovery_email_placeholder_body (E : env) (self : EmailSender)
    (recipient_email username : string) (s : state) :
  let body :=
    ("Hello " ++ username ++ "," ++ nl ++ nl
     ++ "We received a request to recover your password." ++ nl
     ++ "Your password is: ['password_hash']" ++ nl ++ nl
     ++ "If you did not request this, please ignore this message.")%string in
  let msg := {| msg_From := sender_email self;
                msg_To := recipient_email;
                msg_Subject := "Password Recovery";
                msg_body := body |} in
  str_contains username body = true
  /\ str_contains "['password_hash']" body = true
  /\ (exists ops,
        wire (snd (send_recovery_email E self recipient_email username s))
        = wire s ++ ops
        /\ forall op,
             In op ops -> is_sendmail op = true ->
             op = Sendmail (sender_email self) recipient_email msg)
  /\ (first_failure E (smtp_session self recipient_email username) = None ->
      wire (snd (send_recovery_email E self recipient_email username s))
      = wire s
        ++ [ SMTP (smtp_server self) (smtp_port self);
             Starttls;
             Login (sender_email self) (sender_password self);
             Sendmail (sender_email self) recipient_email msg ])
  /\ (first_failure E (smtp_session self recipient_email username) = None ->
      net E Quit = None ->
      fst (send_recovery_email E self recipient_email username s) = Ok tt)
  /\ (forall E' db db',
        net E' = net E ->
        fs E DB_FILE = Holds (PDict db) -> all_records_ok E db = true ->
        fs E' DB_FILE = Holds (PDict db') -> all_records_ok E' db' = true ->
        directory db' = directory db ->
        recover_password E' s = recover_password E s).
Proof.
  cbv zeta. fold (recovery_body username).
  rewrite send_recovery_email_outcome. cbn [fst snd].
  split; [|split; [|split; [|split; [|split]]]].
  - unfold recovery_body.
    apply (str_contains_later username "Hello "), str_contains_here.
  - unfold recovery_body.
    apply (str_contains_later _ "Hello "), str_contains_later.
    reflexivity.
  - exists (completed E (smtp_session self recipient_email username)).
    split; [now autorewrite with frame|].
    intros op. apply completed_sendmail.
  - intros Hf. rewrite (completed_all E _ Hf). now autorewrite with frame.
  - intros Hf Hq.
    now rewrite (raised_in_try_accepted E self _ _ Hf), Hq.
  - intros E' db db'. apply recover_password_same_directory.
Qed.

(** C5 on a network that accepts every call: what the function sends for
    the user alice. *)
Lemma send_recovery_email_placeholder_body_witness :
  wire (snd (send_recovery_email (env_with Absent) gmail_sender "a@x.com"
               "alice" (window_with "a@x.com")))
  = wire (window_with "a@x.com")
    ++ [ SMTP (smtp_server gmail_sender) (smtp_port gmail_sender);
         Starttls;
         Login (sender_email gmail_sender) (sender_password gmail_sender);
         Sendmail (sender_email gmail_sender) "a@x.com"
           {| msg_From := sender_email gmail_sender;
              msg_To := "a@x.com";
              msg_Subject := "Password Recovery";
              msg_body :=
                ("Hello " ++ "alice" ++ "," ++ nl ++ nl
                 ++ "We received a request to recover your password." ++ nl
                 ++ "Your password is: ['password_hash']" ++ nl ++ nl
                 ++ "If you did not request this, please ignore this message.")%string
           |} ].
Proof.
  apply (proj1 (proj2 (proj2 (proj2
           (send_recovery_email_placeholder_body
              (env_with Absent) gmail_sender "a@x.com" "alice"
              (window_with "a@x.com")))))).
  reflexivity.
Defined.

(* ------------------------------------------------------------------ *)
(** ** Reachability of the handler's [else] branch *)

(** The lookup never returns [None]: it returns a username of the
    well-formed store, or raises [UserNotFoundError]. *)
Lemma find_user_by_email_key_or_not_found (E : env) (q : string)
    (s : state) :
  (exists db u d,
      fs E DB_FILE = Holds (PDict db) /\ In (u, d) db
      /\ find_user_by_email E q s = (Ok u, s))
  \/ (exists s',
         find_user_by_email E q s
         = (Raise (Exn UserNotFoundError [Lit (normalize q)]), s')).
Proof.
  destruct (find_user_by_email_cases E q s)
    as [(db & u & Hfs & _ & Hm & Hf) | Hraise]; [left | now right].
  destruct (first_match_key q db u Hm) as (d & Hin & _).
  now exists db, u, d.
Qed.

(** C10, on the code.  A record whose username is the empty string is
    found by the lookup, which returns that string; [recover_password]
    tests it with [if user:], takes the found user for none, and runs its
    [else] branch: the not-found dialog is shown, the input is cleared,
    and no mail is sent. *)
Theorem recover_password_empty_username_taken_for_none (E : env)
    (db : dict) (s : state) :
  fs E DB_FILE = Holds (PDict db) ->
  all_records_ok E db = true ->
  first_match (email_input s) db = Some EmptyString ->
  find_user_by_email E (email_input s) s = (Ok EmptyString, s)
  /\ recover_password E s
     = (Ok tt, set_input EmptyString (add_dialog not_found_dialog s)).
Proof.
  intros Hfs Hv Hm.
  assert (Hf : find_user_by_email E (email_input s) s = (Ok EmptyString, s)).
  { rewrite (find_user_by_email_valid E db Hfs Hv). unfold lookup_result.
    now rewrite Hm. }
  split; [exact Hf|]. now apply recover_password_falsy_user.
Qed.

(** C10 on a store whose only record has the empty username, with that
    record's address typed in. *)
Lemma recover_password_empty_username_taken_for_none_witness :
  find_user_by_email (env_with (Holds (PDict anonymous_store)))
    (email_input (window_with "a@x.com")) (window_with "a@x.com")
  = (Ok EmptyString, window_with "a@x.com")
  /\ recover_password (env_with (Holds (PDict anonymous_store)))
       (window_with "a@x.com")
     = (Ok tt,
        set_input EmptyString
          (add_dialog not_found_dialog (window_with "a@x.com"))).
Proof.
  apply (recover_password_empty_username_taken_for_none
           (env_with (Holds (PDict anonymous_store))) anonymous_store
           (window_with "a@x.com")).
  - reflexivity.
  - reflexivity.
  - reflexivity.
Defined.

(* ------------------------------------------------------------------ *)
(** ** Configuration *)

Lemma load_config_object (E : env) (d : dict) (s : state) :
  fs E EMAIL_CONFIG_FILE = Holds (PDict d) ->
  load_config E s
  = if absent_or_blank "sender_email" d || absent_or_blank "sender_password" d
    then (Raise (Exn EmailConfigError
                   [Lit "Missing email or password in the configuration file."]),
          s)
    else (Ok (PDict d), s).
Proof.
  intros Hfs. unfold load_config, path_exists, json_load, absent_or_blank.
  rewrite Hfs. run.
  destruct (dict_lookup "sender_email" d) as [v1|];
    destruct (dict_lookup "sender_password" d) as [v2|]; simpl;
    try destruct (truthy v1); try destruct (truthy v2); reflexivity.
Qed.

Lemma load_config_not_object (E : env) (v : pyval) (s : state) :
  fs E EMAIL_CONFIG_FILE = Holds v ->
  (forall d, v <> PDict d) ->
  load_config E s = (Raise (Exn AttributeError [Native]), s).
Proof.
  intros Hfs Hv. unfold load_config, path_exists, json_load.
  rewrite Hfs.
  destruct v; try reflexivity. now elim (Hv d).
Qed.

Lemma load_config_unreadable (E : env) (s : state) :
  fs E EMAIL_CONFIG_FILE = Unreadable ->
  load_config E s = (Raise (Exn OtherError [Native]), s).
Proof.
  intros Hfs. unfold load_config, path_exists, json_load. now rewrite Hfs.
Qed.

(** Where [load_config] does raise [EmailConfigError]: exactly for a
    missing file, a [JSONDecodeError], or an object in which
    [sender_email] or [sender_password] is absent or blank (for a text
    field: empty); an object with both fields present and not blank is
    returned. *)
Lemma load_config_config_error_iff (E : env) (s : state) :
  ((exists m s', load_config E s = (Raise (Exn EmailConfigError m), s'))
   <-> (fs E EMAIL_CONFIG_FILE = Absent
        \/ fs E EMAIL_CONFIG_FILE = Garbled
        \/ exists d,
             fs E EMAIL_CONFIG_FILE = Holds (PDict d)
             /\ (absent_or_blank "sender_email" d = true
                 \/ absent_or_blank "sender_password" d = true)))
  /\ (forall d,
        fs E EMAIL_CONFIG_FILE = Holds (PDict d) ->
        absent_or_blank "sender_email" d = false ->
        absent_or_blank "sender_password" d = false ->
        load_config E s = (Ok (PDict d), s))
  /\ (forall d k,
        (dict_lookup k d = None -> absent_or_blank k d = true)
        /\ (forall v, dict_lookup k d = Some (PStr v) ->
                      (absent_or_blank k d = true <-> v = EmptyString))).
Proof.
  split; [|split].
  - destruct (fs E EMAIL_CONFIG_FILE) as [| | |v] eqn:Hfs.
    + split; [now left|]. intros _.
      unfold load_config, path_exists. rewrite Hfs. eexists. eexists.
      reflexivity.
    + split; [now right; left|]. intros _.
      unfold load_config, path_exists, json_load. rewrite Hfs.
      eexists. eexists. reflexivity.
    + rewrite (load_config_unreadable E s Hfs). split.
      * intros (m & s' & H). discriminate.
      * intros [H|[H|(d & H & _)]]; discriminate.
    + destruct v;
        try (rewrite (load_config_not_object E _ s Hfs) by discriminate;
             split;
             [ intros (m & s' & H); discriminate
             | intros [H|[H|(d & H & _)]]; discriminate ]).
      rewrite (load_config_object E d s Hfs).
      destruct (absent_or_blank "sender_email" d) eqn:H1;
        destruct (absent_or_blank "sender_password" d) eqn:H2; simpl.
      * split; [|eauto]. intros _. right; right. exists d. auto.
      * split; [|eauto]. intros _. right; right. exists d. auto.
      * split; [|eauto]. intros _. right; right. exists d. auto.
      * split; [intros (m & s' & H); discriminate|].
        intros [H|[H|(d' & H & [H'|H'])]]; try discriminate;
          injection H as <-; congruence.
  - intros d Hfs H1 H2. rewrite (load_config_object E d s Hfs).
    now rewrite H1, H2.
  - intros d k. unfold absent_or_blank. split.
    + now intros ->.
    + intros v ->. destruct v; simpl; split; congruence.
Qed.

(** C4, on the code.  Two failures of the config file are not turned into
    [EmailConfigError], and no dialog is shown for them.  A file that
    decodes to a value other than an object, in which both fields are
    absent, makes [config.get] raise [AttributeError]; a file that exists
    but cannot be read or decoded as text makes [open] or [json.load]
    raise an exception that the only clause, [except json.JSONDecodeError],
    does not name. *)
Theorem load_config_untranslated_failures (E : env) (s : state) :
  (forall v,
      fs E EMAIL_CONFIG_FILE = Holds v -> (forall d, v <> PDict d) ->
      load_config E s = (Raise (Exn AttributeError [Native]), s))
  /\ (fs E EMAIL_CONFIG_FILE = Unreadable ->
      load_config E s = (Raise (Exn OtherError [Native]), s)).
Proof.
  split.
  - intros v. apply load_config_not_object.
  - apply load_config_unreadable.
Qed.

(** C4 on a config file holding the JSON text [[]]. *)
Lemma load_config_untranslated_failures_witness :
  load_config (env_with_config (Holds (PList []))) (window_with "")
  = (Raise (Exn AttributeError [Native]), window_with "").
Proof.
  apply (proj1 (load_config_untranslated_failures
                  (env_with_config (Holds (PList []))) (window_with ""))
           (PList [])).
  - reflexivity.
  - discriminate.
Defined.

(* ------------------------------------------------------------------ *)
(** ** Construction of the window *)

Lemma absent_or_blank_value (k : string) (d : dict) :
  absent_or_blank k d = negb (truthy (config_value k d)).
Proof.
  unfold absent_or_blank, config_value. now destruct (dict_lookup k d).
Qed.

Lemma RecoveryWindow_init_absent (E : env) (s : state) :
  fs E EMAIL_CONFIG_FILE = Absent ->
  RecoveryWindow_init E s
  = (Raise config_missing_error,
     add_dialog (config_error_dialog config_missing_error)
       (add_dialog
          {| dlg_parent := false;
             dlg_title := "Configuration Error";
             dlg_text := [Lit "Config file not found at ";
                          PathOf EMAIL_CONFIG_FILE] |} s)).
Proof.
  intros Hfs.
  unfold RecoveryWindow_init, try_except, bind at 1, load_config, path_exists.
  now rewrite Hfs.
Qed.

Lemma RecoveryWindow_init_garbled (E : env) (s : state) :
  fs E EMAIL_CONFIG_FILE = Garbled ->
  RecoveryWindow_init E s
  = (Raise config_garbled_error,
     add_dialog (config_error_dialog config_garbled_error)
       (add_dialog
          {| dlg_parent := false;
             dlg_title := "Configuration Error";
             dlg_text := [Lit "Failed to decode email config: ";
                          StrOf (Exn JSONDecodeError [Native])] |} s)).
Proof.
  intros Hfs.
  unfold RecoveryWindow_init, try_except, bind at 1, load_config, path_exists,
    json_load.
  now rewrite Hfs.
Qed.

Lemma RecoveryWindow_init_object (E : env) (d : dict) (s : state) :
  fs E EMAIL_CONFIG_FILE = Holds (PDict d) ->
  RecoveryWindow_init E s
  = if absent_or_blank "sender_email" d || absent_or_blank "sender_password" d
    then (Raise config_blank_error,
          add_dialog (config_error_dialog config_blank_error) s)
    else (Ok (EmailSender_init "smtp.gmail.com" 587
                (config_value "sender_email" d)
                (config_value "sender_password" d)), s).
Proof.
  intros Hfs.
  unfold RecoveryWindow_init, try_except, bind at 1.
  rewrite (load_config_object E d s Hfs).
  rewrite !absent_or_blank_value.
  destruct (negb (truthy (config_value "sender_email" d))
            || negb (truthy (config_value "sender_password" d))) eqn:Hb.
  - reflexivity.
  - unfold bind, py_get, ret. fold (config_value "sender_email" d).
    fold (config_value "sender_password" d). now rewrite Hb.
Qed.

Lemma RecoveryWindow_init_unreadable (E : env) (s : state) :
  fs E EMAIL_CONFIG_FILE = Unreadable ->
  RecoveryWindow_init E s = (Raise (Exn OtherError [Native]), s).
Proof.
  intros Hfs.
  unfold RecoveryWindow_init, try_except, bind at 1.
  now rewrite (load_config_unreadable E s Hfs).
Qed.

Lemma RecoveryWindow_init_not_object (E : env) (v : pyval) (s : state) :
  fs E EMAIL_CONFIG_FILE = Holds v ->
  (forall d, v <> PDict d) ->
  RecoveryWindow_init E s = (Raise (Exn AttributeError [Native]), s).
Proof.
  intros Hfs Hv.
  unfold RecoveryWindow_init, try_except, bind at 1.
  now rewrite (load_config_not_object E v s Hfs Hv).
Qed.

(** X1.  The constructor's [try] statement completes exactly when the
    config file holds an object whose [sender_email] and [sender_password]
    are both present and not blank; it then shows no dialog and builds the
    sender for [smtp.gmail.com], port 587, with the two config values. *)
Theorem RecoveryWindow_init_succeeds_iff (E : env) (s s' : state)
    (a : sender_attrs) :
  RecoveryWindow_init E s = (Ok a, s')
  <-> exists d,
        fs E EMAIL_CONFIG_FILE = Holds (PDict d)
        /\ absent_or_blank "sender_email" d = false
        /\ absent_or_blank "sender_password" d = false
        /\ a = {| attr_smtp_server := "smtp.gmail.com";
                  attr_smtp_port := 587;
                  attr_sender_email := config_value "sender_email" d;
                  attr_sender_password := config_value "sender_password" d |}
        /\ s' = s.
Proof.
  split.
  - destruct (fs E EMAIL_CONFIG_FILE) as [| | |v] eqn:Hfs.
    + rewrite (RecoveryWindow_init_absent E s Hfs). discriminate.
    + rewrite (RecoveryWindow_init_garbled E s Hfs). discriminate.
    + rewrite (RecoveryWindow_init_unreadable E s Hfs). discriminate.
    + destruct v;
        try (rewrite (RecoveryWindow_init_not_object E _ s Hfs)
               by discriminate; discriminate).
      rewrite (RecoveryWindow_init_object E d s Hfs).
      destruct (absent_or_blank "sender_email" d) eqn:H1;
        destruct (absent_or_blank "sender_password" d) eqn:H2;
        simpl; try discriminate.
      intros H. exists d. unfold EmailSender_init in H.
      injection H as <- <-. auto.
  - intros (d & Hfs & H1 & H2 & -> & ->).
    rewrite (RecoveryWindow_init_object E d s Hfs), H1, H2. reflexivity.
Qed.

(** X1 on a config file with both credentials. *)
Lemma RecoveryWindow_init_succeeds_iff_witness :
  RecoveryWindow_init
    (env_full (Holds (PDict gmail_config)) Absent reachable_net)
    (window_with "")
  = (Ok {| attr_smtp_server := "smtp.gmail.com";
           attr_smtp_port := 587;
           attr_sender_email := PStr "noreply@example.com";
           attr_sender_password := PStr "app-password" |},
     window_with "").
Proof.
  apply (proj2 (RecoveryWindow_init_succeeds_iff
                  (env_full (Holds (PDict gmail_config)) Absent reachable_net)
                  (window_with "") (window_with "") _)).
  exists gmail_config. repeat split.
Defined.

(** X2.  A config error is raised again by the constructor, unchanged,
    after one more dialog owned by the window whose text is the error's
    message: a missing or undecodable file therefore gives two dialogs
    (the first, without parent, from [load_config]), a blank or absent
    field gives one. *)
Theorem RecoveryWindow_init_reports_config_error (E : env) (s : state) :
  (fs E EMAIL_CONFIG_FILE = Absent ->
     exists d0,
       dlg_parent d0 = false
       /\ RecoveryWindow_init E s
          = (Raise config_missing_error,
             add_dialog (config_error_dialog config_missing_error)
               (add_dialog d0 s)))
  /\ (fs E EMAIL_CONFIG_FILE = Garbled ->
        exists d0,
          dlg_parent d0 = false
          /\ RecoveryWindow_init E s
             = (Raise config_garbled_error,
                add_dialog (config_error_dialog config_garbled_error)
                  (add_dialog d0 s)))
  /\ (forall d,
        fs E EMAIL_CONFIG_FILE = Holds (PDict d) ->
        absent_or_blank "sender_email" d = true
        \/ absent_or_blank "sender_password" d = true ->
        RecoveryWindow_init E s
        = (Raise config_blank_error,
           add_dialog (config_error_dialog config_blank_error) s)).
Proof.
  split; [|split].
  - intros Hfs. eexists. split; [|apply (RecoveryWindow_init_absent E s Hfs)].
    reflexivity.
  - intros Hfs. eexists. split; [|apply (RecoveryWindow_init_garbled E s Hfs)].
    reflexivity.
  - intros d Hfs Hb. rewrite (RecoveryWindow_init_object E d s Hfs).
    destruct Hb as [-> | ->]; [reflexivity|].
    now rewrite orb_true_r.
Qed.

(** X2 on a config file without [sender_password]. *)
Lemma RecoveryWindow_init_reports_config_error_witness :
  RecoveryWindow_init
    (env_full (Holds (PDict [("sender_email", PStr "noreply@example.com")]))
       Absent reachable_net)
    (window_with "")
  = (Raise config_blank_error,
     add_dialog (config_error_dialog config_blank_error) (window_with "")).
Proof.
  apply (proj2 (proj2
           (RecoveryWindow_init_reports_config_error
              (env_full
                 (Holds (PDict [("sender_email", PStr "noreply@example.com")]))
                 Absent reachable_net)
              (window_with "")))
           [("sender_email", PStr "noreply@example.com")]).
  - reflexivity.
  - right. reflexivity.
Defined.

(** X3.  The check on the two fields that the constructor repeats after
    [load_config] never fires: whatever the config file, the constructor
    neither raises the error of that check nor shows its dialog. *)
Theorem RecoveryWindow_init_check_is_dead (E : env) (s : state) :
  fst (RecoveryWindow_init E s) <> Raise (Exn EmailConfigError init_check_message)
  /\ (forall d,
        In d (dialogs (snd (RecoveryWindow_init E s))) ->
        dlg_text d = init_check_message \/ dlg_text d = [StrOf (Exn EmailConfigError init_check_message)] ->
        In d (dialogs s)).
Proof.
  destruct (fs E EMAIL_CONFIG_FILE) as [| | |v] eqn:Hfs.
  - rewrite (RecoveryWindow_init_absent E s Hfs). split; [discriminate|].
    intros d Hin Ht. simpl in Hin.
    rewrite <- app_assoc in Hin. apply in_app_or in Hin.
    destruct Hin as [Hin|[<-|[<-|[]]]]; [exact Hin| |];
      destruct Ht as [Ht|Ht]; discriminate Ht.
  - rewrite (RecoveryWindow_init_garbled E s Hfs). split; [discriminate|].
    intros d Hin Ht. simpl in Hin.
    rewrite <- app_assoc in Hin. apply in_app_or in Hin.
    destruct Hin as [Hin|[<-|[<-|[]]]]; [exact Hin| |];
      destruct Ht as [Ht|Ht]; discriminate Ht.
  - rewrite (RecoveryWindow_init_unreadable E s Hfs).
    split; [discriminate | now intros d Hin _].
  - destruct v;
      try (rewrite (RecoveryWindow_init_not_object E _ s Hfs) by discriminate;
           split; [discriminate | now intros d Hin _]).
    rewrite (RecoveryWindow_init_object E d s Hfs).
    destruct (absent_or_blank "sender_email" d || absent_or_blank "sender_password" d).
    + split; [discriminate|].
      intros d' Hin Ht. simpl in Hin. apply in_app_or in Hin.
      destruct Hin as [Hin|[<-|[]]]; [exact Hin|].
      destruct Ht as [Ht|Ht]; discriminate Ht.
    + split; [discriminate | now intros d' Hin _].
Qed.

(** X3 on a config file without [sender_password]: the error raised is
    [load_config]'s, not the constructor's. *)
Lemma RecoveryWindow_init_check_is_dead_witness :
  fst (RecoveryWindow_init
         (env_full (Holds (PDict [("sender_email", PStr "noreply@example.com")]))
            Absent reachable_net)
         (window_with ""))
  <> Raise (Exn EmailConfigError init_check_message).
Proof.
  apply (proj1 (RecoveryWindow_init_check_is_dead
                  (env_full
                     (Holds (PDict [("sender_email", PStr "noreply@example.com")]))
                     Absent reachable_net)
                  (window_with ""))).
Defined.

(** X4.  A config file that decodes to something other than an object makes
    the constructor end with the [AttributeError] of [config.get]: the
    [except EmailConfigError] clause does not apply, and no dialog at all
    is shown. *)
Theorem RecoveryWindow_init_not_object_escapes (E : env) (v : pyval)
    (s : state) :
  fs E EMAIL_CONFIG_FILE = Holds v ->
  (forall d, v <> PDict d) ->
  RecoveryWindow_init E s = (Raise (Exn AttributeError [Native]), s)
  /\ dialogs (snd (RecoveryWindow_init E s)) = dialogs s.
Proof.
  intros Hfs Hv.
  now rewrite (RecoveryWindow_init_not_object E v s Hfs Hv).
Qed.

(** X4 on a config file holding the JSON text [[]]. *)
Lemma RecoveryWindow_init_not_object_escapes_witness :
  RecoveryWindow_init (env_full (Holds (PList [])) Absent reachable_net)
    (window_with "")
  = (Raise (Exn AttributeError [Native]), window_with "")
  /\ dialogs (snd (RecoveryWindow_init
                     (env_full (Holds (PList [])) Absent reachable_net)
                     (window_with "")))
     = dialogs (window_with "").
Proof.
  apply (RecoveryWindow_init_not_object_escapes
           (env_full (Holds (PList [])) Absent reachable_net) (PList [])).
  - reflexivity.
  - discriminate.
Defined.

(* ------------------------------------------------------------------ *)
(** ** What reaches the wire *)

Lemma completed_before_sendmail (E : env) (self : EmailSender)
    (r u : string) (e : exn) :
  first_failure E (smtp_session self r u) = Some e ->
  existsb is_sendmail (completed E (smtp_session self r u)) = false.
Proof.
  unfold smtp_session. simpl.
  repeat match goal with
         | |- context [net E ?op] => destruct (net E op); simpl
         end;
    intros H; try reflexivity; discriminate H.
Qed.

Lemma completed_length (E : env) (ops : list smtp_op) :
  length (completed E ops) <= length ops.
Proof.
  induction ops as [|op ops IH]; simpl; [lia|].
  destruct (net E op); simpl; lia.
Qed.

Lemma add_wires_email_sender (ops : list smtp_op) (s : state) :
  email_sender (add_wires ops s) = email_sender s.
Proof. apply add_wires_frame. Qed.

(** X5.  When [send_recovery_email] raises, either no mail was
    transmitted (the calls that went through stop before [sendmail]), or
    all four calls went through and the error is the one built from the
    refused QUIT on leaving the [with] block.  In both cases the function
    shows no dialog and leaves the input field and the window as they
    were. *)
Theorem send_recovery_email_failure_and_transmission (E : env)
    (self : EmailSender) (r u : string) (s s' : state) (e : exn) :
  send_recovery_email E self r u s = (Raise e, s') ->
  (exists ops,
      wire s' = wire s ++ ops
      /\ (existsb is_sendmail ops = false
          \/ (ops = smtp_session self r u
              /\ exists y, net E Quit = Some y /\ e = translated y)))
  /\ email_input s' = email_input s
  /\ is_open s' = is_open s
  /\ dialogs s' = dialogs s
  /\ email_sender s' = email_sender s.
Proof.
  rewrite send_recovery_email_outcome.
  intros H. pose proof (f_equal snd H) as Hs. cbn [snd] in Hs. subst s'.
  apply (f_equal fst) in H. cbn [fst] in H.
  autorewrite with frame. rewrite add_wires_email_sender.
  repeat split.
  exists (completed E (smtp_session self r u)).
  split; [reflexivity|].
  destruct (first_failure E (smtp_session self r u)) as [e0|] eqn:Hf.
  - left. now apply completed_before_sendmail with (e := e0).
  - right. split; [now apply completed_all|].
    rewrite (raised_in_try_accepted E self r u Hf) in H.
    destruct (net E Quit) as [y|]; [|discriminate].
    exists y. split; [reflexivity|]. now injection H.
Qed.

(** X5 with a server that accepts the mail and then answers QUIT with a
    reply other than 221: the mail is on the wire and the function
    raises. *)
Lemma send_recovery_email_failure_and_transmission_witness :
  (exists ops,
      wire (add_wires (smtp_session gmail_sender "a@x.com" "alice")
              (window_with "a@x.com"))
      = wire (window_with "a@x.com") ++ ops
      /\ (existsb is_sendmail ops = false
          \/ (ops = smtp_session gmail_sender "a@x.com" "alice"
              /\ exists y,
                   net (env_full Absent Absent unclean_quit_net) Quit = Some y
                   /\ Exn EmailSendingError
                        [Lit "Failed to send the recovery email: ";
                         StrOf (Exn OtherError [Native])]
                      = translated y)))
  /\ email_input (add_wires (smtp_session gmail_sender "a@x.com" "alice")
                    (window_with "a@x.com"))
     = email_input (window_with "a@x.com")
  /\ is_open (add_wires (smtp_session gmail_sender "a@x.com" "alice")
                (window_with "a@x.com"))
     = is_open (window_with "a@x.com")
  /\ dialogs (add_wires (smtp_session gmail_sender "a@x.com" "alice")
                (window_with "a@x.com"))
     = dialogs (window_with "a@x.com")
  /\ email_sender (add_wires (smtp_session gmail_sender "a@x.com" "alice")
                     (window_with "a@x.com"))
     = email_sender (window_with "a@x.com").
Proof.
  apply (send_recovery_email_failure_and_transmission
           (env_full Absent Absent unclean_quit_net) gmail_sender
           "a@x.com" "alice" (window_with "a@x.com") _
           (Exn EmailSendingError
              [Lit "Failed to send the recovery email: ";
               StrOf (Exn OtherError [Native])])).
  reflexivity.
Defined.

(** X6.  The recovery mail goes to the text typed into the field, exactly
    as typed, not to the address stored in the matching record: when the
    lookup in a well-formed store finds a non-empty username and the
    network accepts the four calls, the handler's [sendmail] names the raw
    input as envelope recipient and as [To] header. *)
Theorem recover_password_mails_typed_text (E : env) (db : dict) (s : state)
    (u : string) :
  fs E DB_FILE = Holds (PDict db) ->
  all_records_ok E db = true ->
  first_match (email_input s) db = Some u ->
  u <> EmptyString ->
  first_failure E (smtp_session (email_sender s) (email_input s) u) = None ->
  wire (snd (recover_password E s))
  = wire s
    ++ [ SMTP (smtp_server (email_sender s)) (smtp_port (email_sender s));
         Starttls;
         Login (sender_email (email_sender s))
           (sender_password (email_sender s));
         Sendmail (sender_email (email_sender s)) (email_input s)
           {| msg_From := sender_email (email_sender s);
              msg_To := email_input s;
              msg_Subject := "Password Recovery";
              msg_body := recovery_body u |} ].
Proof.
  intros Hfs Hv Hm Hu Hnet.
  assert (Hf : find_user_by_email E (email_input s) s = (Ok u, s)).
  { rewrite (find_user_by_email_valid E db Hfs Hv). unfold lookup_result.
    now rewrite Hm. }
  apply truthy_str_nonempty in Hu.
  rewrite (recover_password_truthy_user E s s u Hf Hu). cbv zeta.
  rewrite (completed_all E _ Hnet).
  destruct (raised_in_try E (email_sender s) (email_input s) u);
    cbn [snd]; read_state; reflexivity.
Qed.

(** X6 on the store of the scenario with a padded, upper-case input: the
    record says [A@X.com], the mail goes to the padded text. *)
Lemma recover_password_mails_typed_text_witness :
  wire (snd (recover_password (env_with (Holds (PDict alice_store)))
               (window_with "  A@x.COM ")))
  = wire (window_with "  A@x.COM ")
    ++ [ SMTP "smtp.gmail.com" 587;
         Starttls;
         Login "noreply@example.com" "app-password";
         Sendmail "noreply@example.com" "  A@x.COM "
           {| msg_From := "noreply@example.com";
              msg_To := "  A@x.COM ";
              msg_Subject := "Password Recovery";
              msg_body := recovery_body "alice" |} ].
Proof.
  apply (recover_password_mails_typed_text
           (env_with (Holds (PDict alice_store))) alice_store
           (window_with "  A@x.COM ") "alice").
  - reflexivity.
  - reflexivity.
  - reflexivity.
  - discriminate.
  - reflexivity.
Defined.

(* ------------------------------------------------------------------ *)
(** ** Every outcome of a click *)

Lemma load_users_db_not_ok_dialog (E : env) (s : state) :
  store_ok E = false ->
  exists d,
    dlg_parent d = false
    /\ load_users_db E s = (Ok (PDict []), add_dialog d s).
Proof.
  unfold store_ok. intros H.
  destruct (fs E DB_FILE) as [| | |data] eqn:Hfs.
  - unfold load_users_db, path_exists. rewrite Hfs. eexists.
    split; [|reflexivity]. reflexivity.
  - unfold load_users_db, path_exists, json_load. rewrite Hfs. eexists.
    split; [|reflexivity]. reflexivity.
  - rewrite (load_users_db_unreadable E s Hfs). eexists.
    split; [|reflexivity]. reflexivity.
  - destruct (load_users_db_invalid E data s Hfs H) as (e & _ & ->).
    eexists. split; [|reflexivity]. reflexivity.
Qed.

Lemma find_user_by_email_unreadable (E : env) (q : string) (s : state) :
  store_ok E = false ->
  exists d,
    dlg_parent d = false
    /\ load_users_db E s = (Ok (PDict []), add_dialog d s)
    /\ find_user_by_email E q s
       = (Raise (Exn UserNotFoundError [Lit (normalize q)]), add_dialog d s).
Proof.
  intros H. destruct (load_users_db_not_ok_dialog E s H) as (d & Hp & Hd).
  exists d. repeat split; try assumption.
  unfold find_user_by_email, bind at 1. now rewrite Hd.
Qed.

Lemma store_ok_valid (E : env) :
  store_ok E = true ->
  exists db, fs E DB_FILE = Holds (PDict db) /\ all_records_ok E db = true.
Proof.
  unfold store_ok.
  destruct (fs E DB_FILE) as [| | |[]]; try discriminate.
  intros H. now exists d.
Qed.

(** The five ways a click can end. *)
Lemma recover_password_cases (E : env) (s : state) :
  (exists d,
      dlg_parent d = false
      /\ recover_password E s
         = (Raise (Exn UserNotFoundError [Lit (normalize (email_input s))]),
            add_dialog d s))
  \/ recover_password E s
     = (Raise (Exn UserNotFoundError [Lit (normalize (email_input s))]), s)
  \/ recover_password E s
     = (Ok tt, set_input EmptyString (add_dialog not_found_dialog s))
  \/ (exists u,
         raised_in_try E (email_sender s) (email_input s) u = None
         /\ recover_password E s
            = (Ok tt,
               set_open false
                 (add_dialog success_dialog
                    (add_wires
                       (smtp_session (email_sender s) (email_input s) u) s))))
  \/ (exists u e,
         raised_in_try E (email_sender s) (email_input s) u = Some e
         /\ recover_password E s
            = (Ok tt,
               add_dialog (error_dialog (translated e))
                 (add_wires
                    (completed E
                       (smtp_session (email_sender s) (email_input s) u))
                    s))).
Proof.
  destruct (store_ok E) eqn:Hok.
  - destruct (store_ok_valid E Hok) as (db & Hfs & Hv).
    pose proof (find_user_by_email_valid E db Hfs Hv (email_input s) s) as Hf.
    unfold lookup_result in Hf.
    destruct (first_match (email_input s) db) as [u|].
    + destruct (truthy_str u) eqn:Hu.
      * pose proof (recover_password_truthy_user E s s u Hf Hu) as Hr.
        cbv zeta in Hr.
        destruct (raised_in_try E (email_sender s) (email_input s) u)
          as [e|] eqn:Hff.
        -- right; right; right; right. now exists u, e.
        -- right; right; right; left. now exists u.
      * destruct u; [|discriminate].
        right; right; left. now apply recover_password_falsy_user.
    + right; left. now apply recover_password_lookup_raises.
  - left.
    destruct (find_user_by_email_unreadable E (email_input s) s Hok)
      as (d & Hp & _ & Hf).
    exists d. split; [exact Hp|]. now apply recover_password_lookup_raises.
Qed.

(** X7.  A click closes an open window exactly when the send completed:
    the [sendmail] went through and the QUIT on leaving the [with] block
    was not refused.  A closed window therefore always means that a mail
    was transmitted; in every other outcome (unknown email, unusable
    store, empty username, refused SMTP call) the window stays open. *)
Theorem recover_password_closes_iff_send_completed (E : env) (s s' : state)
    (r : result unit) :
  recover_password E s = (r, s') ->
  is_open s = true ->
  exists ops,
    wire s' = wire s ++ ops
    /\ (is_open s' = false
        <-> existsb is_sendmail ops = true /\ net E Quit = None).
Proof.
  intros Hr Hopen.
  destruct (recover_password_cases E s)
    as [(d & _ & H) | [H | [H | [(u & Hf & H) | (u & e & Hf & H)]]]];
    rewrite H in Hr; apply (f_equal snd) in Hr; cbn [snd] in Hr; subst s'.
  - exists []. read_state. rewrite app_nil_r, Hopen.
    split; [reflexivity | split; [discriminate | now intros [? _]]].
  - exists []. rewrite app_nil_r, Hopen.
    split; [reflexivity | split; [discriminate | now intros [? _]]].
  - exists []. read_state. rewrite app_nil_r, Hopen.
    split; [reflexivity | split; [discriminate | now intros [? _]]].
  - exists (smtp_session (email_sender s) (email_input s) u). read_state.
    split; [reflexivity|]. split; [|reflexivity].
    intros _. split; [reflexivity|].
    now destruct (raised_in_try_none E _ _ _ Hf).
  - exists (completed E (smtp_session (email_sender s) (email_input s) u)).
    read_state. rewrite Hopen.
    split; [reflexivity|]. split; [discriminate|].
    intros [Hsent Hq]. exfalso.
    destruct (first_failure E
                (smtp_session (email_sender s) (email_input s) u))
      as [e0|] eqn:Hff.
    + rewrite (completed_before_sendmail E _ _ _ e0 Hff) in Hsent.
      discriminate.
    + rewrite (raised_in_try_accepted E _ _ _ Hff), Hq in Hf. discriminate.
Qed.

(** X7 with a server that accepts the mail and then answers QUIT with a
    reply other than 221: the mail is on the wire and the window stays
    open. *)
Lemma recover_password_closes_iff_send_completed_witness :
  exists ops,
    wire (add_dialog
            (error_dialog
               (Exn EmailSendingError
                  [Lit "Failed to send the recovery email: ";
                   StrOf (Exn OtherError [Native])]))
            (add_wires (smtp_session gmail_sender "a@x.com" "alice")
               (window_with "a@x.com")))
    = wire (window_with "a@x.com") ++ ops
    /\ (is_open
          (add_dialog
             (error_dialog
                (Exn EmailSendingError
                   [Lit "Failed to send the recovery email: ";
                    StrOf (Exn OtherError [Native])]))
             (add_wires (smtp_session gmail_sender "a@x.com" "alice")
                (window_with "a@x.com")))
        = false
        <-> existsb is_sendmail ops = true
            /\ net (env_full Absent (Holds (PDict alice_store))
                      unclean_quit_net) Quit = None).
Proof.
  apply (recover_password_closes_iff_send_completed
           (env_full Absent (Holds (PDict alice_store)) unclean_quit_net)
           (window_with "a@x.com") _ (Ok tt)).
  - reflexivity.
  - reflexivity.
Defined.

(** X8.  A store that cannot be used (file missing, undecodable, or
    failing validation) is reported to the caller as an unknown user:
    after the one dialog without parent shown by the load, every lookup
    raises [UserNotFoundError], whatever the query, and so does the
    submit handler, without any SMTP call. *)
Theorem unreadable_store_reported_as_unknown_user (E : env) (s : state) :
  store_ok E = false ->
  exists d,
    dlg_parent d = false
    /\ (forall q,
          find_user_by_email E q s
          = (Raise (Exn UserNotFoundError [Lit (normalize q)]),
             add_dialog d s))
    /\ recover_password E s
       = (Raise (Exn UserNotFoundError [Lit (normalize (email_input s))]),
          add_dialog d s)
    /\ wire (add_dialog d s) = wire s.
Proof.
  intros Hok.
  destruct (load_users_db_not_ok_dialog E s Hok) as (d & Hp & Hd).
  assert (Hfind : forall q,
             find_user_by_email E q s
             = (Raise (Exn UserNotFoundError [Lit (normalize q)]),
                add_dialog d s)).
  { intros q. unfold find_user_by_email, bind at 1. now rewrite Hd. }
  exists d. repeat split; try assumption.
  now apply recover_password_lookup_raises.
Qed.

(** X8 with the store file missing and a known address typed in. *)
Lemma unreadable_store_reported_as_unknown_user_witness :
  exists d,
    dlg_parent d = false
    /\ (forall q,
          find_user_by_email (env_with Absent) q (window_with "a@x.com")
          = (Raise (Exn UserNotFoundError [Lit (normalize q)]),
             add_dialog d (window_with "a@x.com")))
    /\ recover_password (env_with Absent) (window_with "a@x.com")
       = (Raise (Exn UserNotFoundError
                   [Lit (normalize (email_input (window_with "a@x.com")))]),
          add_dialog d (window_with "a@x.com"))
    /\ wire (add_dialog d (window_with "a@x.com"))
       = wire (window_with "a@x.com").
Proof.
  apply (unreadable_store_reported_as_unknown_user
           (env_with Absent) (window_with "a@x.com")).
  reflexivity.
Defined.

(** X10.  Whatever the files and the network, a click keeps the sender,
    only appends to the dialogs (at most one) and to the wire (at most the
    four calls of one session), leaves the input text or empties it, and
    never reopens a closed window. *)
Theorem recover_password_invariants (E : env) (s s' : state)
    (r : result unit) :
  recover_password E s = (r, s') ->
  email_sender s' = email_sender s
  /\ (exists ds, dialogs s' = dialogs s ++ ds /\ length ds <= 1)
  /\ (exists ops, wire s' = wire s ++ ops /\ length ops <= 4)
  /\ (email_input s' = email_input s \/ email_input s' = EmptyString)
  /\ (is_open s' = is_open s \/ is_open s' = false).
Proof.
  intros Hr.
  destruct (recover_password_cases E s)
    as [(d & _ & H) | [H | [H | [(u & Hf & H) | (u & e & Hf & H)]]]];
    rewrite H in Hr; apply (f_equal snd) in Hr; cbn [snd] in Hr; subst s'.
  - repeat split; try (now left).
    + exists [d]. split; [reflexivity | simpl; lia].
    + exists []. split; [now rewrite app_nil_r | simpl; lia].
  - repeat split; try (now left).
    + exists []. split; [now rewrite app_nil_r | simpl; lia].
    + exists []. split; [now rewrite app_nil_r | simpl; lia].
  - repeat split; try (now left); try (now right).
    + exists [not_found_dialog]. split; [reflexivity | simpl; lia].
    + exists []. split; [now rewrite app_nil_r | simpl; lia].
  - unfold set_open, add_dialog. cbn [email_sender email_input is_open dialogs wire].
    autorewrite with frame. rewrite add_wires_email_sender.
    repeat split; try (now left); try (now right).
    + exists [success_dialog]. split; [reflexivity | simpl; lia].
    + eexists. split; [reflexivity | simpl; lia].
  - unfold add_dialog. cbn [email_sender email_input is_open dialogs wire].
    autorewrite with frame. rewrite add_wires_email_sender.
    repeat split; try (now left).
    + eexists. split; [reflexivity | simpl; lia].
    + eexists. split; [reflexivity|].
      pose proof (completed_length E
                    (smtp_session (email_sender s) (email_input s) u)) as Hl.
      simpl in Hl. exact Hl.
Qed.

(** X10 for a successful click on the scenario's store. *)
Lemma recover_password_invariants_witness :
  email_sender (snd (recover_password (env_with (Holds (PDict alice_store)))
                       (window_with "a@x.com")))
  = email_sender (window_with "a@x.com").
Proof.
  apply (recover_password_invariants
           (env_with (Holds (PDict alice_store))) (window_with "a@x.com") _
           (Ok tt)).
  reflexivity.
Defined.

(* ------------------------------------------------------------------ *)
(** ** Blank input *)

Lemma strip_all_space (q : string) :
  all_space q = true -> strip q = EmptyString.
Proof.
  intros H. unfold strip. now rewrite (lstrip_all_space q H).
Qed.

Lemma lower_empty (s : string) : lower s = EmptyString -> s = EmptyString.
Proof.
  destruct s; [reflexivity | discriminate].
Qed.

Lemma record_ok_regex (E : env) (d : pyval) :
  record_ok E d = true ->
  exists e, stored_email d = Some e /\ email_regex E e = true.
Proof.
  intros H. destruct (record_ok_stored_email E d H) as (r & e & -> & He & Hs).
  exists e. split; [exact Hs|].
  simpl in H. rewrite He in H.
  apply andb_prop in H. now destruct H.
Qed.

Lemma first_match_blank (E : env) (db : dict) (q : string) :
  (forall e, email_regex E e = true -> strip e <> EmptyString) ->
  all_records_ok E db = true ->
  normalize q = EmptyString ->
  first_match q db = None.
Proof.
  intros Hrx Hv Hq. unfold first_match.
  induction db as [|[u d] rest IH]; simpl; [reflexivity|].
  simpl in Hv. apply andb_prop in Hv. destruct Hv as [Hd Hrest].
  destruct (record_ok_regex E d Hd) as (e & Hs & He).
  unfold matches at 1. simpl. rewrite Hs, Hq.
  destruct (String.eqb (normalize e) EmptyString) eqn:Heq.
  - apply String.eqb_eq in Heq. apply lower_empty in Heq.
    now elim (Hrx e He).
  - now apply IH.
Qed.

Lemma has_space_lstrip (s : string) : has_space s = false -> lstrip s = s.
Proof.
  destruct s as [|c s]; simpl; [reflexivity|].
  now destruct (isspace c).
Qed.

Lemma has_space_rstrip (s : string) : has_space s = false -> rstrip s = s.
Proof.
  induction s as [|c s IH]; simpl; [reflexivity|].
  destruct (isspace c) eqn:Hc; simpl; [discriminate|].
  intros H. rewrite (IH H). now destruct s.
Qed.

Lemma email_regex_spec_not_blank (e : string) :
  email_regex_spec e = true -> strip e <> EmptyString.
Proof.
  unfold email_regex_spec.
  destruct e as [|c e]; [discriminate|].
  destruct (after_first "@" (String c e)) as [[n dom]|]; [|discriminate].
  intros H. apply andb_prop in H. destruct H as [_ H].
  apply negb_true_iff in H.
  unfold strip. rewrite (has_space_lstrip _ H), (has_space_rstrip _ H).
  discriminate.
Qed.

(** X9.  Provided the email pattern accepts no text that is blank once
    trimmed, an empty or whitespace-only input is never found, whatever the
    store: the lookup raises [UserNotFoundError] for the empty string, and
    the submit handler lets it escape. *)
Theorem blank_query_is_never_found (E : env) (s : state) :
  (forall e, email_regex E e = true -> strip e <> EmptyString) ->
  all_space (email_input s) = true ->
  exists s',
    find_user_by_email E (email_input s) s
    = (Raise (Exn UserNotFoundError [Lit EmptyString]), s')
    /\ recover_password E s
       = (Raise (Exn UserNotFoundError [Lit EmptyString]), s').
Proof.
  intros Hrx Hq.
  assert (Hn : normalize (email_input s) = EmptyString).
  { unfold normalize. now rewrite (strip_all_space _ Hq). }
  assert (Hfind : exists s',
             find_user_by_email E (email_input s) s
             = (Raise (Exn UserNotFoundError [Lit EmptyString]), s')).
  { destruct (store_ok E) eqn:Hok.
    - destruct (store_ok_valid E Hok) as (db & Hfs & Hv).
      exists s. rewrite (find_user_by_email_valid E db Hfs Hv).
      unfold lookup_result.
      now rewrite (first_match_blank E db _ Hrx Hv Hn), Hn.
    - destruct (find_user_by_email_unreadable E (email_input s) s Hok)
        as (d & _ & _ & Hf).
      exists (add_dialog d s). now rewrite Hf, Hn. }
  destruct Hfind as [s' Hf]. exists s'. split; [exact Hf|].
  now apply recover_password_lookup_raises.
Qed.

(** X9 on the scenario's store, with three spaces typed in. *)
Lemma blank_query_is_never_found_witness :
  exists s',
    find_user_by_email (env_with (Holds (PDict alice_store)))
      (email_input (window_with "   ")) (window_with "   ")
    = (Raise (Exn UserNotFoundError [Lit EmptyString]), s')
    /\ recover_password (env_with (Holds (PDict alice_store)))
         (window_with "   ")
       = (Raise (Exn UserNotFoundError [Lit EmptyString]), s').
Proof.
  apply (blank_query_is_never_found
           (env_with (Holds (PDict alice_store))) (window_with "   ")).
  - exact email_regex_spec_not_blank.
  - reflexivity.
Defined.

(* ------------------------------------------------------------------ *)
(** ** From the config file to the SMTP login *)

Lemma recover_password_session_wire (E : env) (db : dict) (s : state)
    (u : string) :
  fs E DB_FILE = Holds (PDict db) ->
  all_records_ok E db = true ->
  first_match (email_input s) db = Some u ->
  u <> EmptyString ->
  first_failure E (smtp_session (email_sender s) (email_input s) u) = None ->
  wire (snd (recover_password E s))
  = wire s ++ smtp_session (email_sender s) (email_input s) u.
Proof.
  intros Hfs Hv Hm Hu Hnet.
  assert (Hf : find_user_by_email E (email_input s) s = (Ok u, s)).
  { rewrite (find_user_by_email_valid E db Hfs Hv). unfold lookup_result.
    now rewrite Hm. }
  apply truthy_str_nonempty in Hu.
  rewrite (recover_password_truthy_user E s s u Hf Hu). cbv zeta.
  rewrite (completed_all E _ Hnet).
  destruct (raised_in_try E (email_sender s) (email_input s) u);
    cbn [snd]; read_state; reflexivity.
Qed.

(** X11.  The credentials of the config file are the ones presented to
    the server.  When the config object holds non-empty text for both
    fields, the constructor builds a sender with them; a window carrying
    that sender then, on a successful click, connects to [smtp.gmail.com]
    port 587, starts TLS, logs in with exactly the configured email and
    password, and sends the mail from the configured email. *)
Theorem configured_credentials_reach_the_server (E : env) (s0 s : state)
    (d db : dict) (e p u : string) :
  fs E EMAIL_CONFIG_FILE = Holds (PDict d) ->
  dict_lookup "sender_email" d = Some (PStr e) -> e <> EmptyString ->
  dict_lookup "sender_password" d = Some (PStr p) -> p <> EmptyString ->
  fs E DB_FILE = Holds (PDict db) ->
  all_records_ok E db = true ->
  first_match (email_input s) db = Some u ->
  u <> EmptyString ->
  first_failure E (smtp_session (email_sender s) (email_input s) u) = None ->
  exists a sender,
    RecoveryWindow_init E s0 = (Ok a, s0)
    /\ typed_sender a = Some sender
    /\ smtp_server sender = "smtp.gmail.com"
    /\ smtp_port sender = 587%Z
    /\ sender_email sender = e
    /\ sender_password sender = p
    /\ (email_sender s = sender ->
        wire (snd (recover_password E s))
        = wire s
          ++ [ SMTP "smtp.gmail.com" 587;
               Starttls;
               Login e p;
               Sendmail e (email_input s)
                 {| msg_From := e;
                    msg_To := email_input s;
                    msg_Subject := "Password Recovery";
                    msg_body := recovery_body u |} ]).
Proof.
  intros Hfs He Hne Hp Hnp Hdb Hv Hm Hu Hnet.
  exists (EmailSender_init "smtp.gmail.com" 587 (PStr e) (PStr p)).
  exists {| smtp_server := "smtp.gmail.com"; smtp_port := 587;
            sender_email := e; sender_password := p |}.
  repeat split.
  - rewrite (RecoveryWindow_init_object E d s0 Hfs).
    unfold absent_or_blank, config_value. rewrite He, Hp. simpl.
    destruct e; [now elim Hne|]. destruct p; [now elim Hnp|]. reflexivity.
  - intros Hs.
    rewrite (recover_password_session_wire E db s u Hdb Hv Hm Hu Hnet).
    now rewrite Hs.
Qed.

(** X11 with the credentials of [gmail_config] and the scenario's store. *)
Lemma configured_credentials_reach_the_server_witness :
  exists a sender,
    RecoveryWindow_init
      (env_full (Holds (PDict gmail_config)) (Holds (PDict alice_store))
         reachable_net)
      (window_with "")
    = (Ok a, window_with "")
    /\ typed_sender a = Some sender
    /\ smtp_server sender = "smtp.gmail.com"
    /\ smtp_port sender = 587%Z
    /\ sender_email sender = "noreply@example.com"
    /\ sender_password sender = "app-password"
    /\ (email_sender (window_with "a@x.com") = sender ->
        wire (snd (recover_password
                     (env_full (Holds (PDict gmail_config))
                        (Holds (PDict alice_store)) reachable_net)
                     (window_with "a@x.com")))
        = wire (window_with "a@x.com")
          ++ [ SMTP "smtp.gmail.com" 587;
               Starttls;
               Login "noreply@example.com" "app-password";
               Sendmail "noreply@example.com"
                 (email_input (window_with "a@x.com"))
                 {| msg_From := "noreply@example.com";
                    msg_To := email_input (window_with "a@x.com");
                    msg_Subject := "Password Recovery";
                    msg_body := recovery_body "alice" |} ]).
Proof.
  apply (configured_credentials_reach_the_server
           (env_full (Holds (PDict gmail_config)) (Holds (PDict alice_store))
              reachable_net)
           (window_with "") (window_with "a@x.com")
           gmail_config alice_store
           "noreply@example.com" "app-password" "alice").
  - reflexivity.
  - reflexivity.
  - discriminate.
  - reflexivity.
  - discriminate.
  - reflexivity.
  - reflexivity.
  - reflexivity.
  - discriminate.
  - reflexivity.
Defined.

(* ------------------------------------------------------------------ *)
(** ** The structure check after validation *)

Lemma validate_items_error_shape (E : env) (items : dict) (s s' : state)
    (e : exn) :
  validate_items E items s = (Raise e, s') ->
  class_of e = DatabaseError ->
  length (args_of e) = 4.
Proof.
  revert s. induction items as [|[u d] rest IH]; intros s; simpl;
    [discriminate|].
  assert (Hend : forall (x : exn) (t : state),
             (class_of x = DatabaseError -> length (args_of x) = 4) ->
             (@Raise bool x, t) = (Raise e, s') ->
             class_of e = DatabaseError -> length (args_of e) = 4).
  { intros x t Hx H. injection H as <- _. exact Hx. }
  destruct d; run;
    try (apply Hend; simpl; intros; first [reflexivity | discriminate]).
  - destruct (str_contains "email" s0); simpl;
      [destruct (str_contains "password_hash" s0); simpl|];
      apply Hend; simpl; intros; first [reflexivity | discriminate].
  - destruct (existsb (is_str "email") l); simpl;
      [destruct (existsb (is_str "password_hash") l); simpl|];
      apply Hend; simpl; intros; first [reflexivity | discriminate].
  - destruct (dict_lookup "email" d) as [v|]; simpl;
      [|apply Hend; simpl; intros; reflexivity].
    destruct (dict_lookup "password_hash" d); simpl;
      [|apply Hend; simpl; intros; reflexivity].
    destruct v; simpl;
      try (apply Hend; simpl; intros; first [reflexivity | discriminate]).
    destruct (email_regex E s0); simpl;
      [apply IH | apply Hend; simpl; intros; reflexivity].
Qed.

Lemma validate_users_db_error_shape (E : env) (v : pyval) (s s' : state)
    (e : exn) :
  validate_users_db E v s = (Raise e, s') ->
  class_of e = DatabaseError ->
  length (args_of e) = 4.
Proof.
  destruct v; unfold validate_users_db; run;
    try (intros H; injection H as <- _; discriminate).
  apply validate_items_error_shape.
Qed.

(** X12.  The [raise] that follows validation in [load_users_db], with the
    message "Invalid user database structure.", never runs, because
    [validate_users_db] raises instead of returning [False]: the load shows
    no dialog, or one dialog without parent, and that dialog never reports
    the structure error. *)
Theorem load_users_db_structure_check_is_dead (E : env) (s : state) :
  dialogs (snd (load_users_db E s)) = dialogs s
  \/ exists d,
       dialogs (snd (load_users_db E s)) = dialogs s ++ [d]
       /\ dlg_parent d = false
       /\ dlg_text d
          <> [Lit "Unexpected error: ";
              StrOf (Exn DatabaseError invalid_structure_message)].
Proof.
  destruct (fs E DB_FILE) as [| | |data] eqn:Hfs.
  - right. unfold load_users_db, path_exists. rewrite Hfs. simpl.
    eexists. repeat split. discriminate.
  - right. unfold load_users_db, path_exists, json_load. rewrite Hfs. simpl.
    eexists. repeat split. discriminate.
  - right. rewrite (load_users_db_unreadable E s Hfs). simpl.
    eexists. repeat split. discriminate.
  - destruct (valid_store E data) eqn:Hv.
    + left. now rewrite (load_users_db_valid E data s Hfs Hv).
    + right.
      destruct (load_users_db_invalid E data s Hfs Hv) as (e & He & Hl).
      rewrite Hl. simpl. eexists. repeat split.
      pose proof (validate_users_db_error_shape E data s s e He) as Hshape.
      intros Ht.
      destruct e as [c a]. destruct c; simpl in Ht; try discriminate Ht.
      injection Ht as Ha. subst a.
      specialize (Hshape eq_refl). discriminate Hshape.
Qed.

(* ------------------------------------------------------------------ *)
(** ** Order of the SMTP calls *)

Lemma completed_login (E : env) (self : EmailSender) (r u user pw : string) :
  In (Login user pw) (completed E (smtp_session self r u)) ->
  net E Starttls = None
  /\ In Starttls (completed E (smtp_session self r u))
  /\ user = sender_email self /\ pw = sender_password self.
Proof.
  unfold smtp_session. simpl.
  repeat match goal with
         | |- context [net E ?op] => destruct (net E op) eqn:?; simpl
         end;
    intros H;
    repeat match goal with
           | H : _ \/ _ |- _ => destruct H
           | H : False |- _ => destruct H
           | H : _ = Login _ _ |- _ => inversion H; clear H; subst
           end;
    auto.
Qed.

(** X14.  The credentials are presented only on an encrypted connection:
    whatever the network answers, a [login] that [send_recovery_email] put
    on the wire was preceded by an accepted [starttls], and it carries the
    sender's own email and password. *)
Theorem send_recovery_email_login_follows_tls (E : env) (self : EmailSender)
    (r u : string) (s : state) :
  exists ops,
    wire (snd (send_recovery_email E self r u s)) = wire s ++ ops
    /\ (forall user pw,
          In (Login user pw) ops ->
          net E Starttls = None
          /\ In Starttls ops
          /\ user = sender_email self /\ pw = sender_password self).
Proof.
  rewrite send_recovery_email_outcome. cbn [snd].
  exists (completed E (smtp_session self r u)).
  split; [now autorewrite with frame|].
  intros user pw. apply completed_login.
Qed.

(** X14 with a server that refuses STARTTLS: only the connection is on the
    wire, and the send fails without a login. *)
Lemma send_recovery_email_login_follows_tls_witness :
  send_recovery_email (env_full Absent Absent plaintext_only_net) gmail_sender
    "a@x.com" "alice" (window_with "a@x.com")
  = (Raise (Exn EmailSendingError
              [Lit "Failed to send the recovery email: ";
               StrOf (Exn OtherError [Native])]),
     add_wires [SMTP "smtp.gmail.com" 587] (window_with "a@x.com"))
  /\ exists ops,
       wire (snd (send_recovery_email
                    (env_full Absent Absent plaintext_only_net) gmail_sender
                    "a@x.com" "alice" (window_with "a@x.com")))
       = wire (window_with "a@x.com") ++ ops
       /\ (forall user pw,
             In (Login user pw) ops ->
             net (env_full Absent Absent plaintext_only_net) Starttls = None
             /\ In Starttls ops
             /\ user = sender_email gmail_sender
             /\ pw = sender_password gmail_sender).
Proof.
  split; [reflexivity|].
  apply (send_recovery_email_login_follows_tls
           (env_full Absent Absent plaintext_only_net) gmail_sender
           "a@x.com" "alice" (window_with "a@x.com")).
Defined.

(* ------------------------------------------------------------------ *)
(** ** Validation stops at the first offender *)

Lemma validate_items_offender_tail (E : env) (u : string) (d : pyval)
    (rest rest' : dict) (s : state) :
  record_ok E d = false ->
  validate_items E ((u, d) :: rest) s = validate_items E ((u, d) :: rest') s.
Proof.
  intros Hd.
  destruct d as [ | b | n | f | txt | l | r ]; simpl in *; run;
    try reflexivity.
  unfold has_key in Hd.
  destruct (dict_lookup "email" r) as [v|]; simpl in *; [|reflexivity].
  destruct (dict_lookup "password_hash" r); simpl in *; [|reflexivity].
  destruct v; simpl in *; try reflexivity.
  now rewrite Hd.
Qed.

(** X13.  Validation is decided by the records up to and including the
    first one that fails a check: it raises there, and the records that
    follow, valid or not, of any type, change neither the error nor its
    message. *)
Theorem validate_users_db_stops_at_first_offender (E : env)
    (l1 l2 l2' : dict) (u : string) (d : pyval) (s : state) :
  all_records_ok E l1 = true ->
  record_ok E d = false ->
  (exists e,
      validate_users_db E (PDict (l1 ++ (u, d) :: l2)) s = (Raise e, s))
  /\ validate_users_db E (PDict (l1 ++ (u, d) :: l2)) s
     = validate_users_db E (PDict (l1 ++ (u, d) :: l2')) s.
Proof.
  intros Hl Hd.
  assert (Hrun : forall l, validate_users_db E (PDict l) s
                           = validate_items E l s) by reflexivity.
  rewrite !Hrun, !validate_items_skip by exact Hl.
  split.
  - now apply validate_items_offender.
  - now apply validate_items_offender_tail.
Qed.

(** X13 on a store whose first record lacks [password_hash]: the error is
    the same whether a second, malformed record follows or not. *)
Lemma validate_users_db_stops_at_first_offender_witness :
  (exists e,
      validate_users_db (env_with Absent)
        (PDict ([] ++ ("alice", PDict [("email", PStr "A@X.com")])
                  :: [("bob", PInt 7)]))
        (window_with "")
      = (Raise e, window_with ""))
  /\ validate_users_db (env_with Absent)
       (PDict ([] ++ ("alice", PDict [("email", PStr "A@X.com")])
                 :: [("bob", PInt 7)]))
       (window_with "")
     = validate_users_db (env_with Absent)
         (PDict ([] ++ ("alice", PDict [("email", PStr "A@X.com")]) :: []))
         (window_with "").
Proof.
  apply (validate_users_db_stops_at_first_offender (env_with Absent)
           [] [("bob", PInt 7)] [] "alice"
           (PDict [("email", PStr "A@X.com")]) (window_with "")).
  - reflexivity.
  - reflexivity.
Defined.

(* ------------------------------------------------------------------ *)
(** ** Iteration order and unique addresses *)

Lemma all_records_ok_permutation (E : env) (db db' : dict) :
  Permutation db db' ->
  all_records_ok E db = true -> all_records_ok E db' = true.
Proof.
  unfold all_records_ok. intros Hp H.
  apply forallb_forall. intros x Hx.
  apply (proj1 (forallb_forall _ db) H).
  now apply (Permutation_in x (Permutation_sym Hp)).
Qed.

Lemma first_match_permutation (q : string) (db db' : dict) :
  Permutation db db' ->
  (forall x y, In x db -> In y db ->
               matches q x = true -> matches q y = true -> fst x = fst y) ->
  first_match q db' = first_match q db.
Proof.
  intros Hp Huniq. unfold first_match.
  destruct (find (matches q) db) as [x|] eqn:Hx;
    destruct (find (matches q) db') as [y|] eqn:Hy; simpl.
  - apply find_some in Hx. apply find_some in Hy.
    destruct Hx as [Hxin Hxm]. destruct Hy as [Hyin Hym].
    f_equal. apply Huniq; try assumption.
    now apply (Permutation_in y (Permutation_sym Hp)).
  - apply find_some in Hx. destruct Hx as [Hxin Hxm].
    pose proof (find_none _ _ Hy x (Permutation_in x Hp Hxin)) as Hn.
    congruence.
  - apply find_some in Hy. destruct Hy as [Hyin Hym].
    pose proof (find_none _ _ Hx y
                  (Permutation_in y (Permutation_sym Hp) Hyin)) as Hn.
    congruence.
  - reflexivity.
Qed.

(** X15.  The order of the records matters only for shared addresses: when
    the records of a well-formed store that match the query all belong to
    one username, reordering the store leaves it well-formed and does not
    change the outcome of the lookup. *)
Theorem find_user_by_email_order_irrelevant_when_unique (E E' : env)
    (db db' : dict) (q : string) (s : state) :
  fs E DB_FILE = Holds (PDict db) ->
  all_records_ok E db = true ->
  fs E' DB_FILE = Holds (PDict db') ->
  email_regex E' = email_regex E ->
  Permutation db db' ->
  (forall x y, In x db -> In y db ->
               matches q x = true -> matches q y = true -> fst x = fst y) ->
  all_records_ok E' db' = true
  /\ find_user_by_email E' q s = find_user_by_email E q s.
Proof.
  intros Hfs Hv Hfs' Hrx Hp Huniq.
  assert (Hv' : all_records_ok E' db' = true).
  { apply (all_records_ok_permutation E' db db' Hp).
    revert Hv. unfold all_records_ok, record_ok. now rewrite Hrx. }
  split; [exact Hv'|].
  rewrite (find_user_by_email_valid E db Hfs Hv),
    (find_user_by_email_valid E' db' Hfs' Hv').
  unfold lookup_result.
  now rewrite (first_match_permutation q db db' Hp Huniq).
Qed.

(** X15 on a store of two users with different addresses, swapped. *)
Lemma find_user_by_email_order_irrelevant_when_unique_witness :
  all_records_ok (env_with (Holds (PDict pair_store_swapped)))
    pair_store_swapped = true
  /\ find_user_by_email (env_with (Holds (PDict pair_store_swapped)))
       "C@x.com" (window_with "")
     = find_user_by_email (env_with (Holds (PDict pair_store)))
         "C@x.com" (window_with "").
Proof.
  apply (find_user_by_email_order_irrelevant_when_unique
           (env_with (Holds (PDict pair_store)))
           (env_with (Holds (PDict pair_store_swapped)))
           pair_store pair_store_swapped).
  - reflexivity.
  - reflexivity.
  - reflexivity.
  - reflexivity.
  - apply perm_swap.
  - intros x y [<-|[<-|[]]] [<-|[<-|[]]] Hx Hy;
      first [reflexivity | discriminate Hx | discriminate Hy].
Defined.
